(** * Capability-scoped execution engine and skill store

    A shallow embedding of [tools/log-analysis/execute_code.py] and
    [tools/log-analysis/skills.py].

    Python values are modelled by small inductive types, [str] by [string]
    (one [ascii] per character: the text whose code points lie below 256),
    [int] by [Z], dictionaries and sets by stdpp's [gmap] and [gset].  A
    raised exception is a value of the result type [Result].  The Python interpreter itself ([exec], calling a
    function object, [ast.parse], the host's [builtins] module) is not part
    of the repository: it is a record [Python] of functions that the
    embedded code receives as an argument. *)

From Stdlib Require Import ZArith DecimalString DecimalPos String Ascii List Lia.
From stdpp Require Import gmap strings list fin_maps sorting.

Open Scope string_scope.
Open Scope Z_scope.

(** ** Python strings *)

Module PyStr.

(** [len(s)] *)
Definition len (s : string) : Z := Z.of_nat (String.length s).

(** [len(l)] for a list *)
Definition len_list {A : Type} (l : list A) : Z := Z.of_nat (List.length l).

(** [str(n)] for an [int] *)
Definition str_of_int (n : Z) : string := NilZero.string_of_int (Z.to_int n).

(** Membership of a code point in a list of closed intervals. *)
Definition in_ranges (c : ascii) (ranges : list (nat * nat)) : bool :=
  let n := nat_of_ascii c in
  existsb (λ r, (r.1 <=? n)%nat && (n <=? r.2)%nat) ranges.

(** [c.isspace()]: TAB..CR, FS..US, the blank, NEL and the no-break
    space.  These are the characters [str.strip()] removes. *)
Definition isspace (c : ascii) : bool :=
  in_ranges c [(9, 13); (28, 32); (133, 133); (160, 160)]%nat.

(** The characters [bytes.strip()] removes: blank, TAB, LF, VT, FF, CR. *)
Definition isspace_bytes (c : ascii) : bool :=
  let n := nat_of_ascii c in
  ((9 <=? n)%nat && (n <=? 13)%nat) || (n =? 32)%nat.

Fixpoint lstrip_with (sp : ascii -> bool) (s : string) : string :=
  match s with
  | EmptyString => EmptyString
  | String a s' => if sp a then lstrip_with sp s' else s
  end.

Fixpoint rstrip_with (sp : ascii -> bool) (s : string) : string :=
  match s with
  | EmptyString => EmptyString
  | String a s' =>
      match rstrip_with sp s' with
      | EmptyString => if sp a then EmptyString else String a EmptyString
      | r => String a r
      end
  end.

(** [s.strip()] *)
Definition strip (s : string) : string := rstrip_with isspace (lstrip_with isspace s).

Definition strip_bytes (s : string) : string :=
  rstrip_with isspace_bytes (lstrip_with isspace_bytes s).

(** [s.split(c)] for a one-character separator: never the empty list. *)
Fixpoint split (c : ascii) (s : string) : list string :=
  match s with
  | EmptyString => [EmptyString]
  | String a s' =>
      if Ascii.eqb a c then EmptyString :: split c s'
      else match split c s' with
           | [] => [String a EmptyString]
           | w :: ws => String a w :: ws
           end
  end.

(** [sep.join(l)] *)
Definition join (sep : string) (l : list string) : string := String.concat sep l.

(** [s[:k]], with Python's reading of a negative bound. *)
Definition slice_to (s : string) (k : Z) : string :=
  if 0 <=? k then substring 0 (Z.to_nat k) s
  else substring 0 (Z.to_nat (len s + k)) s.

(** [sorted(S)] for a set of strings: code-point order. *)
Definition sorted (S : gset string) : list string :=
  merge_sort String.le (elements S).

(** [t in s] as a proposition: [t] occurs in [s]. *)
Definition Contains (s t : string) : Prop := ∃ pre post, s = pre +:+ t +:+ post.

(** [c in s] for a character [c] *)
Fixpoint mem_char (c : ascii) (s : string) : bool :=
  match s with
  | EmptyString => false
  | String a s' => Ascii.eqb a c || mem_char c s'
  end.

(** [s.lower()]: the capitals A..Z and U+00C0..U+00DE (the sign U+00D7
    apart) have their small letter 32 code points further. *)
Definition lower_char (c : ascii) : ascii :=
  if in_ranges c [(65, 90); (192, 214); (216, 222)]%nat
  then ascii_of_nat (nat_of_ascii c + 32) else c.

Fixpoint lower (s : string) : string :=
  match s with
  | EmptyString => EmptyString
  | String a s' => String (lower_char a) (lower s')
  end.

(** [c.isalnum()]: the ASCII digits and letters, and below U+0100 also
    the ordinal indicators, the superscript digits, the micro sign, the
    vulgar fractions and the accented letters. *)
Definition isalnum_char (c : ascii) : bool :=
  in_ranges c [(48, 57); (65, 90); (97, 122); (170, 170); (178, 179);
               (181, 181); (185, 186); (188, 190); (192, 214); (216, 246);
               (248, 255)]%nat.

Fixpoint forallb_str (p : ascii -> bool) (s : string) : bool :=
  match s with
  | EmptyString => true
  | String a s' => p a && forallb_str p s'
  end.

(** [s.isalnum()]: false on the empty string. *)
Definition isalnum (s : string) : bool :=
  match s with
  | EmptyString => false
  | _ => forallb_str isalnum_char s
  end.

(** [s.replace(c, '')] for a one-character [c] *)
Fixpoint remove_char (c : ascii) (s : string) : string :=
  match s with
  | EmptyString => EmptyString
  | String a s' => if Ascii.eqb a c then remove_char c s' else String a (remove_char c s')
  end.

(** [sorted(l)] for a list of strings *)
Definition sorted_list (l : list string) : list string := merge_sort String.le l.

(** [t in s] for strings: [t] occurs in [s]. *)
Fixpoint contains (t s : string) : bool :=
  String.prefix t s
  || match s with
     | EmptyString => false
     | String _ s' => contains t s'
     end.

(** [c.upper()] for one character: the small letters a..z and
    U+00E0..U+00FE (the sign U+00F7 apart) have their capital 32 code
    points before; the sharp s becomes "SS"; the capitals of the micro
    sign and of U+00FF lie above U+00FF ([None]). *)
Definition upper_char (c : ascii) : option string :=
  if in_ranges c [(97, 122); (224, 246); (248, 254)]%nat
  then Some (String (ascii_of_nat (nat_of_ascii c - 32)) EmptyString)
  else if in_ranges c [(223, 223)]%nat then Some "SS"
  else if in_ranges c [(181, 181); (255, 255)]%nat then None
  else Some (String c EmptyString).

(** [s.upper()], when it holds no character above U+00FF. *)
Fixpoint upper (s : string) : option string :=
  match s with
  | EmptyString => Some EmptyString
  | String a s' =>
      match upper_char a, upper s' with
      | Some u, Some r => Some (u +:+ r)
      | _, _ => None
      end
  end.

(** The line boundaries of [str.splitlines]: LF, VT, FF, CR, FS, GS, RS
    and NEL. *)
Definition is_linebreak (c : ascii) : bool :=
  in_ranges c [(10, 13); (28, 30); (133, 133)]%nat.

(** [s.splitlines()]: CR LF is one boundary, and a boundary at the very
    end opens no further line. *)
Fixpoint splitlines (s : string) : list string :=
  match s with
  | EmptyString => []
  | String a s' =>
      if is_linebreak a then
        EmptyString ::
          match s' with
          | String b s'' =>
              if Ascii.eqb a "013" && Ascii.eqb b "010" then splitlines s''
              else splitlines s'
          | EmptyString => []
          end
      else
        match splitlines s' with
        | [] => [String a EmptyString]
        | w :: ws => String a w :: ws
        end
  end.

(** What reading a file in text mode gives of its content: every CR LF
    and every other CR comes back as LF. *)
Fixpoint universal_newlines (s : string) : string :=
  match s with
  | EmptyString => EmptyString
  | String a s' =>
      if Ascii.eqb a "013" then
        String "010"
          match s' with
          | String b s'' =>
              if Ascii.eqb b "010" then universal_newlines s''
              else universal_newlines s'
          | EmptyString => EmptyString
          end
      else String a (universal_newlines s')
  end.

(** [c.isprintable()] *)
Definition isprintable (c : ascii) : bool :=
  in_ranges c [(32, 126); (161, 172); (174, 255)]%nat.

(** The two hexadecimal digits of a code point, in lower case. *)
Definition hex_digit (n : nat) : ascii :=
  if (n <? 10)%nat then ascii_of_nat (48 + n) else ascii_of_nat (87 + n).
Definition hex2 (c : ascii) : string :=
  let n := nat_of_ascii c in
  String (hex_digit (n / 16)) (String (hex_digit (n mod 16)) EmptyString).

(** How [repr] writes one character between the quotes [q]. *)
Definition repr_char (q c : ascii) : string :=
  let backslash : ascii := "092"%char in
  if Ascii.eqb c q || Ascii.eqb c backslash then String backslash (String c EmptyString)
  else if Ascii.eqb c "009" then String backslash "t"
  else if Ascii.eqb c "010" then String backslash "n"
  else if Ascii.eqb c "013" then String backslash "r"
  else if isprintable c then String c EmptyString
  else String backslash ("x" +:+ hex2 c).

Fixpoint repr_body (q : ascii) (s : string) : string :=
  match s with
  | EmptyString => EmptyString
  | String a s' => repr_char q a +:+ repr_body q s'
  end.

(** [repr(s)]: single quotes, unless [s] holds a single quote and no
    double quote. *)
Definition repr (s : string) : string :=
  let q : ascii := (if mem_char "'" s && negb (mem_char "034" s) then "034" else "'")%char in
  String q (repr_body q s +:+ String q EmptyString).

End PyStr.

(** ** Exceptions and results *)

(** An exception object: [type(e).__name__], the built-in exception
    classes it is an instance of (its own class when that is a built-in
    one, and the built-in classes its class derives from), [str(e)], and
    the [lineno] and [msg] attributes that [SyntaxError] carries ([None]
    when the attribute is [None]).  A class that a snippet defines has a
    name of the snippet's choosing, which may be that of a built-in class
    it does not derive from. *)
Record PyExc := mkExc {
  exc_type : string;
  exc_classes : list string;
  exc_str : string;
  exc_lineno : option Z;
  exc_msg : option string
}.

(** [isinstance(e, cls)] for a built-in exception class [cls], as the
    [except cls] clauses of the code test it. *)
Definition isinstance (e : PyExc) (cls : string) : bool :=
  bool_decide (cls ∈ exc_classes e).

(** An instance of a built-in class, given the built-in classes the class
    derives from. *)
Definition builtin_exc (cls : string) (bases : list string) (msg : string) : PyExc :=
  mkExc cls (cls :: bases) msg None None.

Definition ImportError (msg : string) : PyExc :=
  builtin_exc "ImportError" ["Exception"; "BaseException"] msg.
Definition TimeoutError (msg : string) : PyExc :=
  builtin_exc "TimeoutError" ["OSError"; "Exception"; "BaseException"] msg.
Definition FileNotFoundError (msg : string) : PyExc :=
  builtin_exc "FileNotFoundError" ["OSError"; "Exception"; "BaseException"] msg.
Definition ValueError (msg : string) : PyExc :=
  builtin_exc "ValueError" ["Exception"; "BaseException"] msg.
Definition AttributeError (msg : string) : PyExc :=
  builtin_exc "AttributeError" ["Exception"; "BaseException"] msg.
Definition OverflowError (msg : string) : PyExc :=
  builtin_exc "OverflowError" ["ArithmeticError"; "Exception"; "BaseException"] msg.
Definition IndexError (msg : string) : PyExc :=
  builtin_exc "IndexError" ["LookupError"; "Exception"; "BaseException"] msg.
Definition TypeError (msg : string) : PyExc :=
  builtin_exc "TypeError" ["Exception"; "BaseException"] msg.
(** A [SyntaxError] with its [lineno] and [msg]. *)
Definition SyntaxError (text : string) (lineno : Z) (msg : string) : PyExc :=
  mkExc "SyntaxError" ["SyntaxError"; "Exception"; "BaseException"] text
    (Some lineno) (Some msg).

(** The result of a Python call: a value, or an exception that propagates
    to the caller. *)
Inductive Result (A : Type) : Type :=
| Ok (a : A)
| Raise (e : PyExc).
Arguments Ok {A} a.
Arguments Raise {A} e.

#[export] Instance result_ret : MRet Result := λ A a, Ok a.
#[export] Instance result_bind : MBind Result := λ A B k r,
  match r with
  | Ok a => k a
  | Raise e => Raise e
  end.

(** ** Integers and their decimal form *)

(** The interpreter converts between [int] and decimal text for at most
    this many digits ([sys.int_info.default_max_str_digits]). *)
Definition INT_MAX_STR_DIGITS : Z := 4300.

(** [str(n)], and [n] formatted by an f-string: [ValueError] for an
    integer of more than [INT_MAX_STR_DIGITS] digits. *)
Definition str_int (n : Z) : Result string :=
  if 10 ^ INT_MAX_STR_DIGITS <=? Z.abs n then
    Raise (ValueError ("Exceeds the limit (4300 digits) for integer string "
                       +:+ "conversion; use sys.set_int_max_str_digits() "
                       +:+ "to increase the limit"))
  else Ok (PyStr.str_of_int n).

Arguments str_int : simpl never.

(** The blanks [int] skips around a literal: TAB..CR, the blank, NEL and
    the no-break space. *)
Definition isspace_int (c : ascii) : bool :=
  PyStr.in_ranges c [(9, 13); (32, 32); (133, 133); (160, 160)]%nat.

Definition digit_val (c : ascii) : option Z :=
  let n := nat_of_ascii c in
  if (48 <=? n)%nat && (n <=? 57)%nat then Some (Z.of_nat (n - 48)) else None.

(** The run of digits and single underscores a literal starts with: its
    value, the number of its digits and what follows it; [None] for a
    doubled underscore or one that ends the run. *)
Fixpoint scan_digits (s : string) (acc digits : Z) (after_underscore : bool)
    : option (Z * Z * string) :=
  match s with
  | EmptyString => if after_underscore then None else Some (acc, digits, s)
  | String c s' =>
      match digit_val c with
      | Some d => scan_digits s' (10 * acc + d) (digits + 1) false
      | None =>
          if Ascii.eqb c "_" then
            if after_underscore then None else scan_digits s' acc digits true
          else if after_underscore then None else Some (acc, digits, s)
      end
  end.

(** The sign a literal starts with, and what follows it. *)
Definition split_sign (s : string) : bool * string :=
  match s with
  | String c digits =>
      if Ascii.eqb c "-" then (true, digits)
      else if Ascii.eqb c "+" then (false, digits)
      else (false, s)
  | EmptyString => (false, s)
  end.

Definition starts_with (c : ascii) (s : string) : bool :=
  match s with
  | String a _ => Ascii.eqb a c
  | EmptyString => false
  end.

(** [int(s)] for a [str]: blanks around, a sign, decimal digits with
    single underscores between them.  The number of digits is checked as
    soon as the run of digits has been read. *)
Definition py_int (s : string) : Result Z :=
  let invalid : Result Z :=
    Raise (ValueError ("invalid literal for int() with base 10: " +:+ PyStr.repr s)) in
  let '(negative, body) := split_sign (PyStr.lstrip_with isspace_int s) in
  if starts_with "_" body then invalid
  else
    match scan_digits body 0 0 false with
    | None => invalid
    | Some (n, digits, rest) =>
        if digits >? INT_MAX_STR_DIGITS then
          Raise (ValueError ("Exceeds the limit (4300 digits) for integer string "
                             +:+ "conversion: value has " +:+ PyStr.str_of_int digits
                             +:+ " digits; use sys.set_int_max_str_digits() "
                             +:+ "to increase the limit"))
        else if digits =? 0 then invalid
        else if String.eqb (PyStr.lstrip_with isspace_int rest) "" then
          Ok (if negative then - n else n)
        else invalid
    end.

Arguments py_int : simpl never.

(** ** Objects, namespaces, and the interpreter *)

(** The objects that appear in a namespace or flow through a call. *)
Inductive Obj :=
| ONone
| OInt (z : Z)
| OStr (s : string)
| OBuiltin (name : string)             (* [getattr(builtins, name)] *)
| OSafeImport (allowed : gset string)  (* the closure [create_safe_import] returns *)
| OModule (name : string)
| OFunction (name : string)            (* a function object bound by a skill's code *)
| OCoroutine (name : string).          (* what calling an [async def] function gives *)

(** The globals dict handed to [exec]: its ['__builtins__'] entry and the
    other entries. *)
Record ExecGlobals := mkGlobals {
  g_builtins : gmap string Obj;
  g_vars : gmap string Obj
}.

Definition Kwargs := list (string * Obj).

(** How the statement [with timeout_handler(timeout): exec(...)] of
    [execute_code] ends: [timeout_handler] raises while it installs the
    handler or arms the alarm, so that [exec] is never called; the snippet
    runs to its end; an exception raised in the snippet (by its own code
    or by the import gate) leaves it; or the alarm handler's exception
    leaves it. *)
Inductive Ending :=
| NotEntered (e : PyExc)
| Finished
| Raised (e : PyExc)
| Interrupted.

(** What is observed of that statement: the text written to stdout and
    stderr, how it ended, the module names its [import] statements asked
    for, and whether the snippet was still running once [timeout] seconds
    had passed. *)
Record Run := mkRun {
  emitted : string;
  ending : Ending;
  imported : list string;
  overran : bool
}.

(** The part of [ast.parse]'s tree the skill store looks at. *)
Inductive NodeKind :=
| FunctionDef (name : string)
| AsyncFunctionDef (name : string)
| ClassDef (name : string)
| OtherNode.

#[warnings="-register-all"]
Inductive ast := Node (kind : NodeKind) (children : list ast).

(** What the embedded code asks of Python and of its host.  A governed
    run is taken to end; importing the three tool modules either succeeds
    or raises [ImportError]; [exec_plain] gives the globals dict as it is
    after the run, as a whole.  [exec_governed code g seconds] is the whole
    statement [with timeout_handler(seconds): exec(code, g, {})],
    [signal.signal] and [signal.alarm] included. *)
Record Python := mkPython {
  builtins_module : gmap string Obj;                 (* the [builtins] module *)
  builtin_import : string -> Result Obj;             (* the real [__import__] *)
  tools_importable : bool;    (* [import log_store, privacy, workspace] all succeed *)
  exec_governed : string -> ExecGlobals -> Z -> Run;
  exec_plain : string -> ExecGlobals -> Result (gmap string Obj);
                              (* [exec(code, g)]: the globals afterwards *)
  call : Obj -> Kwargs -> Result Obj;                (* calling [func] with keyword arguments *)
  ast_parse : string -> Result ast
}.

(** What a host observes of an operation: the snippets handed to [exec]
    and the callables invoked. *)
Inductive Event :=
| EvExec (code : string) (g : ExecGlobals)
| EvCall (callee : Obj) (kwargs : Kwargs).

(** ** execute_code.py *)

Module ExecuteCode.

(** *** Security configuration *)

Definition DEFAULT_TIMEOUT : Z := 30.
Definition MAX_OUTPUT_SIZE : Z := 100000.
Definition MAX_MEMORY_BYTES : Z := 256 * 1024 * 1024.

Definition ALLOWED_IMPORTS : gset string := list_to_set
  [ "log_store"; "privacy"; "workspace";
    "json"; "re"; "math"; "datetime"; "collections"; "itertools";
    "functools"; "operator"; "string"; "textwrap"; "unicodedata";
    "statistics"; "random"; "hashlib"; "base64"; "copy"; "pprint";
    "enum"; "dataclasses"; "typing"; "time";
    "csv" ].

Definition RESTRICTED_BUILTINS : gset string := list_to_set
  [ "abs"; "all"; "any"; "ascii"; "bin"; "bool"; "bytearray"; "bytes";
    "callable"; "chr"; "classmethod"; "complex"; "dict"; "dir"; "divmod";
    "enumerate"; "filter"; "float"; "format"; "frozenset"; "getattr";
    "hasattr"; "hash"; "hex"; "id"; "int"; "isinstance"; "issubclass";
    "iter"; "len"; "list"; "map"; "max"; "min"; "next"; "object"; "oct";
    "ord"; "pow"; "print"; "property"; "range"; "repr"; "reversed"; "round";
    "set"; "setattr"; "slice"; "sorted"; "staticmethod"; "str"; "sum";
    "super"; "tuple"; "type"; "vars"; "zip";
    "Exception"; "BaseException"; "ValueError"; "TypeError"; "KeyError";
    "IndexError"; "AttributeError"; "RuntimeError"; "StopIteration";
    "None"; "True"; "False" ].

Definition BLOCKED_BUILTINS : gset string := list_to_set
  [ "open"; "exec"; "eval"; "compile"; "__import__"; "input";
    "breakpoint"; "globals"; "locals"; "memoryview" ].

(** *** Safe import mechanism *)

(** [create_safe_import(allowed_modules)] applied to [name]: the inner
    [safe_import(name, ...)]. *)
Definition create_safe_import (real_import : string -> Result Obj)
    (allowed_modules : gset string) (name : string) : Result Obj :=
  let base_module := hd "" (PyStr.split "." name) in
  if bool_decide (base_module ∉ allowed_modules) then
    Raise (ImportError
             ("Import of '" +:+ name +:+ "' is not allowed. "
              +:+ "Allowed modules: "
              +:+ PyStr.join ", " (PyStr.sorted allowed_modules)))
  else real_import name.

(** What Python's [import name] statement does under the globals [g]: it
    calls the [__import__] entry of the builtins of [g]. *)
Definition import_statement (real_import : string -> Result Obj)
    (g : ExecGlobals) (name : string) : Result Obj :=
  match g_builtins g !! "__import__" with
  | Some (OSafeImport allowed) => create_safe_import real_import allowed name
  | Some (OBuiltin _) => real_import name
  | _ => Raise (ImportError "__import__ not found")
  end.

(** *** Execution environment *)

(** [signal.alarm(seconds)], with which [timeout_handler] arms the alarm:
    the argument has to fit a C int. *)
Definition signal_alarm (seconds : Z) : Result unit :=
  if (- 2 ^ 31 <=? seconds) && (seconds <? 2 ^ 31) then Ok ()
  else Raise (OverflowError "Python int too large to convert to C int").

(** The exception [signal_handler] raises when the alarm armed by
    [timeout_handler(seconds)] goes off. *)
Definition signal_handler (seconds : Z) : PyExc :=
  TimeoutError ("Code execution timed out after "
                +:+ PyStr.str_of_int seconds +:+ " seconds").

Definition create_execution_globals (py : Python) : ExecGlobals :=
  let safe_builtins : gmap string Obj :=
    list_to_map
      (omap (λ name, (λ v, (name, v)) <$> builtins_module py !! name)
            (elements RESTRICTED_BUILTINS)) in
  let safe_builtins := <["__import__" := OSafeImport ALLOWED_IMPORTS]> safe_builtins in
  let exec_globals : gmap string Obj :=
    <["__doc__" := ONone]> (<["__name__" := OStr "__sandbox__"]> ∅) in
  let exec_globals :=
    if tools_importable py then
      <["workspace" := OModule "workspace"]>
        (<["privacy" := OModule "privacy"]>
           (<["log_store" := OModule "log_store"]> exec_globals))
    else exec_globals in
  mkGlobals safe_builtins exec_globals.

(** *** Main execution function *)

(** The values a caller can pass as [code]. *)
#[warnings="-register-all"]
Inductive PyValue :=
| PNone
| PBool (b : bool)
| PInt (z : Z)
| PStr (s : string)
| PBytes (s : string)
| PList (items : list PyValue).

(** [bool(v)] *)
Definition truthy (v : PyValue) : bool :=
  match v with
  | PNone => false
  | PBool b => b
  | PInt z => negb (z =? 0)
  | PStr s => negb (String.eqb s "")
  | PBytes s => negb (String.eqb s "")
  | PList items => match items with [] => false | _ => true end
  end.

Definition type_name (v : PyValue) : string :=
  match v with
  | PNone => "NoneType"
  | PBool _ => "bool"
  | PInt _ => "int"
  | PStr _ => "str"
  | PBytes _ => "bytes"
  | PList _ => "list"
  end.

(** [v.strip()]: only [str] and [bytes] have the attribute. *)
Definition py_strip (v : PyValue) : Result PyValue :=
  match v with
  | PStr s => Ok (PStr (PyStr.strip s))
  | PBytes s => Ok (PBytes (PyStr.strip_bytes s))
  | _ => Raise (AttributeError
                  ("'" +:+ type_name v +:+ "' object has no attribute 'strip'"))
  end.

(** The result envelope. *)
Record Envelope := mkEnvelope {
  success : bool;
  output : string;
  error : string;
  truncated : bool
}.

(** [f"{e.lineno}"] for a [SyntaxError] of the parser, whose line number
    is a line of the code or [None]. *)
Definition render_lineno (l : option Z) : string :=
  match l with Some n => PyStr.str_of_int n | None => "None" end.
Definition render_msg (m : option string) : string :=
  match m with Some s => s | None => "None" end.

(** [f"{e.lineno}"] for an exception that comes out of a snippet, which
    can give its [lineno] any value. *)
Definition format_lineno (l : option Z) : Result string :=
  match l with Some n => str_int n | None => Ok "None" end.

(** The [except] clauses of [execute_code], in order, applied to the
    exception that leaves the [try] body: the error text of the
    envelope; or the exception itself when no clause matches; or the
    exception that formatting the error text raises. *)
Definition except_clauses (e : PyExc) : Result string :=
  if isinstance e "TimeoutError" then Ok (exc_str e)
  else if isinstance e "ImportError" then Ok ("Import error: " +:+ exc_str e)
  else if isinstance e "SyntaxError" then
    lineno ← format_lineno (exc_lineno e);
    Ok ("Syntax error at line " +:+ lineno +:+ ": " +:+ render_msg (exc_msg e))
  else if isinstance e "Exception" then
    Ok (exc_type e +:+ ": " +:+ exc_str e)
  else Raise e.

(** The truncation marker around the decimal form of the cap. *)
Definition marker_text (cap : string) : string :=
  String "010" "... [OUTPUT TRUNCATED - exceeded " +:+ cap +:+ " chars]".

(** The truncation marker appended for the cap [max_output]. *)
Definition truncation_marker (max_output : Z) : string :=
  marker_text (PyStr.str_of_int max_output).

(** The [finally] block: the output text and the truncated flag.  The
    f-string of the marker formats [max_output], which raises for a cap
    of more than [INT_MAX_STR_DIGITS] digits. *)
Definition finalize_output (captured : string) (max_output : Z)
    : Result (string * bool) :=
  if PyStr.len captured >? max_output then
    cap ← str_int max_output;
    Ok (PyStr.slice_to captured max_output +:+ marker_text cap, true)
  else Ok (captured, false).

Arguments finalize_output : simpl never.

Definition validation_failure (msg : string) : Envelope :=
  mkEnvelope false "" msg false.

(** How the [try] statement is left: [success] and [error] of the
    envelope, or the exception no clause caught.  The alarm going off is
    [signal_handler] raising inside the governed run. *)
Definition try_statement (timeout : Z) (e : Ending) : Result (bool * string) :=
  match e with
  | NotEntered exc => err ← except_clauses exc; Ok (false, err)
  | Finished => Ok (true, "")
  | Raised exc => err ← except_clauses exc; Ok (false, err)
  | Interrupted => err ← except_clauses (signal_handler timeout); Ok (false, err)
  end.

(** The snippets handed to [exec]: none when [timeout_handler] raised on
    entry. *)
Definition exec_events (src : string) (g : ExecGlobals) (e : Ending) : list Event :=
  match e with
  | NotEntered _ => []
  | _ => [EvExec src g]
  end.

(** [execute_code(code, timeout, max_output)]: the events it causes and
    what it returns or lets escape. *)
Definition execute_code (py : Python) (code : PyValue) (timeout max_output : Z)
    : list Event * Result Envelope :=
  (* if not code or not code.strip() *)
  if negb (truthy code) then ([], Ok (validation_failure "No code provided"))
  else
    match py_strip code with
    | Raise e => ([], Raise e)
    | Ok stripped =>
        if negb (truthy stripped) then ([], Ok (validation_failure "No code provided"))
        else
          match code with
          | PStr src =>
              let exec_globals := create_execution_globals py in
              (* with timeout_handler(timeout): exec(code, exec_globals, exec_locals) *)
              let run := exec_governed py src exec_globals timeout in
              let left := try_statement timeout (ending run) in
              (* finally: an exception raised here replaces the one that
                 is propagating *)
              (exec_events src exec_globals (ending run),
               final ← finalize_output (emitted run) max_output;
               '(ok, err) ← left;
               Ok (mkEnvelope ok final.1 err final.2))
          | _ => ([], Ok (validation_failure "Code must be a string"))
          end
    end.

(** The dict [get_available_tools] returns. *)
Record AvailableTools := mkAvailableTools {
  sandbox_tools : list string;
  standard_modules : list string;
  example : string;
  timeout_seconds : Z;
  max_output_chars : Z
}.

Definition tools_example : string :=
  let nl := String "010" "" in
  let dq := String "034" "" in
  nl +:+ "# Example: Process logs, scrub PII, and save checkpoint" +:+ nl
  +:+ "import json" +:+ nl
  +:+ nl
  +:+ "# Query logs (data stays in sandbox)" +:+ nl
  +:+ "errors = log_store.search_logs(" +:+ dq +:+ "api" +:+ dq +:+ ", "
      +:+ dq +:+ "error" +:+ dq +:+ ", limit=100)" +:+ nl
  +:+ nl
  +:+ "# Process locally" +:+ nl
  +:+ "results = []" +:+ nl
  +:+ "for error in errors:" +:+ nl
  +:+ "    clean = privacy.scrub_all_pii(error)" +:+ nl
  +:+ "    results.append(clean)" +:+ nl
  +:+ nl
  +:+ "# Save checkpoint for later resumption" +:+ nl
  +:+ "workspace.save_checkpoint(" +:+ dq +:+ "error_analysis" +:+ dq +:+ ", {" +:+ nl
  +:+ "    " +:+ dq +:+ "processed" +:+ dq +:+ ": len(results)," +:+ nl
  +:+ "    " +:+ dq +:+ "sample" +:+ dq +:+ ": results[:3]" +:+ nl
  +:+ "})" +:+ nl
  +:+ nl
  +:+ "# Only return summary to AI" +:+ nl
  +:+ "print(json.dumps({" +:+ nl
  +:+ "    " +:+ dq +:+ "count" +:+ dq +:+ ": len(results)," +:+ nl
  +:+ "    " +:+ dq +:+ "checkpoint_saved" +:+ dq +:+ ": True" +:+ nl
  +:+ "}))" +:+ nl.

(** [get_available_tools()] *)
Definition get_available_tools : AvailableTools :=
  let sandbox_tools := ["log_store"; "privacy"; "workspace"] in
  let standard_modules :=
    PyStr.sorted_list
      (filter (λ m, m ∉ sandbox_tools) (elements ALLOWED_IMPORTS)) in
  mkAvailableTools sandbox_tools standard_modules (PyStr.strip tools_example)
    DEFAULT_TIMEOUT MAX_OUTPUT_SIZE.

End ExecuteCode.

(** ** skills.py *)

Module Skills.

(** *** Configuration *)

Definition MAX_SKILL_SIZE : Z := 50 * 1024.
Definition MAX_SKILLS : Z := 100.

Definition nl : string := String "010" "".
Definition dq : string := String "034" "".
Definition fence : string := "```".

(** [SKILL_MD_TEMPLATE.format(...)] *)
Definition SKILL_MD_TEMPLATE
    (name description params_example parameters returns example date version : string)
    : string :=
  "# " +:+ name +:+ nl +:+ nl
  +:+ description +:+ nl +:+ nl
  +:+ "## Usage" +:+ nl +:+ nl
  +:+ fence +:+ "python" +:+ nl
  +:+ "import skills" +:+ nl
  +:+ "result = skills.run_skill(" +:+ dq +:+ name +:+ dq +:+ params_example +:+ ")" +:+ nl
  +:+ fence +:+ nl +:+ nl
  +:+ "## Parameters" +:+ nl +:+ nl
  +:+ parameters +:+ nl +:+ nl
  +:+ "## Returns" +:+ nl +:+ nl
  +:+ returns +:+ nl +:+ nl
  +:+ "## Example" +:+ nl +:+ nl
  +:+ fence +:+ "python" +:+ nl
  +:+ example +:+ nl
  +:+ fence +:+ nl +:+ nl
  +:+ "## Created" +:+ nl +:+ nl
  +:+ "- **Date**: " +:+ date +:+ nl
  +:+ "- **Version**: " +:+ version +:+ nl.

(** *** The persisted state *)

(** A [Dict[str, str]] in insertion order. *)
Definition Params := list (string * string).

(** The dict stored in [metadata.json].  The keys that the fallback dict
    of [get_skill] lacks are optional. *)
Record Metadata := mkMetadata {
  m_name : string;
  m_description : string;
  m_parameters : option Params;
  m_returns : option string;
  m_functions : list string;
  m_version : option string;
  m_created : option string;
  m_updated : option string
}.

(** A skill directory: the text of the three files it may hold. *)
Record SkillDir := mkSkillDir {
  implementation_py : option string;
  metadata_json : option Metadata;
  SKILL_md : option string
}.

(** The skills directory: skill name to skill directory. *)
Abbreviation Store := (gmap string SkillDir).

(** A reading of the clock, [datetime.now()], with the two renderings
    the code takes of it. *)
Record datetime := mkDatetime {
  isoformat : string;      (* [.isoformat()] *)
  strftime_ymd : string    (* [.strftime("%Y-%m-%d")] *)
}.

(** The three successive readings [save_skill] takes. *)
Record Clock := mkClock {
  now_created : datetime;
  now_updated : datetime;
  now_date : datetime
}.

(** *** Validation *)

Definition reserved : gset string :=
  list_to_set ["__init__"; "__main__"; "setup"; "test"; "config"].

Definition _validate_skill_name (name : string) : Result unit :=
  if String.eqb name "" then Raise (ValueError "Skill name cannot be empty")
  else if negb (PyStr.isalnum (PyStr.remove_char "-" (PyStr.remove_char "_" name))) then
    Raise (ValueError ("Invalid skill name '" +:+ name +:+ "'. "
                       +:+ "Use only letters, numbers, underscores, and hyphens."))
  else if PyStr.len name >? 50 then
    Raise (ValueError "Skill name must be 50 characters or less")
  else if bool_decide (PyStr.lower name ∈ reserved) then
    Raise (ValueError ("Skill name '" +:+ name +:+ "' is reserved"))
  else Ok ().

(** [ast.iter_child_nodes(node)] *)
Definition iter_child_nodes (node : ast) : list ast :=
  match node with Node _ children => children end.

Definition kind_of (node : ast) : NodeKind :=
  match node with Node k _ => k end.

(** The number of nodes of a tree. *)
Fixpoint size (t : ast) : nat :=
  match t with
  | Node _ children => S (fold_right (λ c n, (size c + n)%nat) 0%nat children)
  end.

(** The loop of [ast.walk]: pop the first node of the queue, append its
    children to the queue, yield the node. *)
Fixpoint walk_queue (fuel : nat) (todo : list ast) : list ast :=
  match fuel with
  | O => []
  | S fuel' =>
      match todo with
      | [] => []
      | node :: rest => node :: walk_queue fuel' (rest ++ iter_child_nodes node)
      end
  end.

(** [ast.walk(tree)] *)
Definition walk (tree : ast) : list ast := walk_queue (size tree) [tree].

(** [node.name] when [isinstance(node, ast.FunctionDef)] *)
Definition function_name (node : ast) : option string :=
  match kind_of node with
  | FunctionDef name => Some name
  | _ => None
  end.

(** Every node of a tree, the root first. *)
Fixpoint all_nodes (t : ast) : list ast :=
  match t with
  | Node _ children =>
      t :: (fix go (cs : list ast) : list ast :=
              match cs with
              | [] => []
              | c :: cs' => (all_nodes c ++ go cs')%list
              end) children
  end.

(** The nodes of a forest, and their number. *)
Definition forest_nodes (ts : list ast) : list ast := concat (map all_nodes ts).
Definition forest_size (ts : list ast) : nat :=
  fold_right (λ c n, (size c + n)%nat) 0%nat ts.

(** The names a module binds as callables at its top level: the
    function and class definitions among the statements of its body. *)
Definition top_level_callables (tree : ast) : list string :=
  omap (λ node, match kind_of node with
                | FunctionDef name | AsyncFunctionDef name | ClassDef name => Some name
                | OtherNode => None
                end) (iter_child_nodes tree).

(** The outcome dict of [_validate_code]. *)
Record Validation := mkValidation {
  valid : bool;
  functions : list string;
  verror : option string
}.

Section Operations.

(** The interpreter, and the value of [SKILLS_DIR] as a path string. *)
Variable py : Python.
Variable SKILLS_DIR : string.

Definition _validate_code (code : string) : Result Validation :=
  if String.eqb code "" || String.eqb (PyStr.strip code) "" then
    Ok (mkValidation false [] (Some "Code cannot be empty"))
  else if PyStr.len code >? MAX_SKILL_SIZE then
    Ok (mkValidation false []
          (Some ("Code too large (" +:+ PyStr.str_of_int (PyStr.len code)
                 +:+ " bytes). Maximum: " +:+ PyStr.str_of_int MAX_SKILL_SIZE)))
  else
    match ast_parse py code with
    | Ok tree =>
        let functions := omap function_name (walk tree) in
        Ok (mkValidation true functions None)
    | Raise e =>
        if isinstance e "SyntaxError" then
          Ok (mkValidation false []
                (Some ("Syntax error at line "
                       +:+ ExecuteCode.render_lineno (exc_lineno e)
                       +:+ ": " +:+ ExecuteCode.render_msg (exc_msg e))))
        else Raise e
    end.

(** [_get_skill_path(name)], as the string [str] gives of it. *)
Definition _get_skill_path (name : string) : Result string :=
  _validate_skill_name name;; Ok (SKILLS_DIR +:+ "/" +:+ name).

(** *** Skill operations *)

(** [list_skills()]: the directories that hold an [implementation.py]. *)
Definition list_skills (fs : Store) : list string :=
  PyStr.sorted (dom (filter (λ kv, is_Some (implementation_py kv.2)) fs)).

(** The dict [save_skill] returns. *)
Record SaveReport := mkSaveReport {
  sr_success : bool;
  sr_name : string;
  sr_path : string;
  sr_functions : list string;
  sr_message : string
}.

Definition DEFAULT_RETURNS : string := "Result of the skill execution".
Definition DEFAULT_VERSION : string := "1.0.0".

(** [parameters or {}] *)
Definition params_or_empty (parameters : option Params) : Params :=
  default [] parameters.

(** The text of the "Parameters" section. *)
Definition params_text (params : Params) : string :=
  match params with
  | [] => "None"
  | _ => PyStr.join nl (map (λ kv, "- `" +:+ kv.1 +:+ "`: " +:+ kv.2) params)
  end.

(** The keyword arguments shown in the "Usage" section. *)
Definition params_example (params : Params) : string :=
  match params with
  | [] => ""
  | _ => ", " +:+ PyStr.join ", " (map (λ kv, kv.1 +:+ "=" +:+ dq +:+ "..." +:+ dq) params)
  end.

(** [example or f'result = skills.run_skill("{name}")'] *)
Definition example_or_default (name example : string) : string :=
  if String.eqb example ""
  then "result = skills.run_skill(" +:+ dq +:+ name +:+ dq +:+ ")"
  else example.

(** The three files [save_skill] writes. *)
Definition skill_files (clock : Clock) (name code description : string)
    (parameters : option Params) (returns example version : string)
    (functions : list string) : SkillDir :=
  let metadata :=
    mkMetadata name description (Some (params_or_empty parameters)) (Some returns)
      functions (Some version)
      (Some (isoformat (now_created clock)))
      (Some (isoformat (now_updated clock))) in
  let skill_md :=
    SKILL_MD_TEMPLATE name description
      (params_example (params_or_empty parameters))
      (params_text (params_or_empty parameters))
      returns (example_or_default name example)
      (strftime_ymd (now_date clock)) version in
  mkSkillDir (Some code) (Some metadata) (Some skill_md).

Definition save_skill (clock : Clock) (fs : Store)
    (name code description : string) (parameters : option Params)
    (returns example version : string) : Result (Store * SaveReport) :=
  _validate_skill_name name;;
  let existing := list_skills fs in
  if (PyStr.len_list existing >=? MAX_SKILLS) && bool_decide (name ∉ existing) then
    Raise (ValueError ("Maximum number of skills (" +:+ PyStr.str_of_int MAX_SKILLS
                       +:+ ") reached"))
  else
    validation ← _validate_code code;
    if negb (valid validation) then
      Raise (ValueError ("Invalid code: " +:+ ExecuteCode.render_msg (verror validation)))
    else
      match functions validation with
      | [] => Raise (ValueError "Code must define at least one function")
      | _ =>
          path ← _get_skill_path name;
          Ok (<[name := skill_files clock name code description parameters
                          returns example version (functions validation)]> fs,
              mkSaveReport true name path (functions validation)
                ("Skill '" +:+ name +:+ "' saved with functions: "
                 +:+ PyStr.join ", " (functions validation)))
      end.

(** The dict [get_skill] returns. *)
Record SkillInfo := mkSkillInfo {
  si_name : string;
  si_code : string;
  si_metadata : Metadata;
  si_skill_md : string;
  si_path : string;
  si_description : string;
  si_functions : list string;
  si_parameters : Params;
  si_version : string
}.

(** [p.read_text(encoding='utf-8') if p.exists() else ""] *)
Definition read_text_or_empty (file : option string) : string :=
  match file with
  | Some text => PyStr.universal_newlines text
  | None => ""
  end.

Definition get_skill (fs : Store) (name : string) : Result SkillInfo :=
  path ← _get_skill_path name;
  match fs !! name with
  | None => Raise (FileNotFoundError ("Skill '" +:+ name +:+ "' not found"))
  | Some dir =>
      let code := read_text_or_empty (implementation_py dir) in
      (* the text [json.dumps] writes holds no CR or LF inside a string,
         so [json.loads] gives back the dict that was written *)
      let metadata :=
        default (mkMetadata name "" None None [] None None None) (metadata_json dir) in
      let skill_md := read_text_or_empty (SKILL_md dir) in
      Ok (mkSkillInfo name code metadata skill_md path
            (m_description metadata) (m_functions metadata)
            (default [] (m_parameters metadata))
            (default "1.0.0" (m_version metadata)))
  end.

(** The globals dict [run_skill] builds for [exec]. *)
Definition skill_globals : ExecGlobals :=
  let exec_globals : gmap string Obj := <["__name__" := OStr "__skill__"]> ∅ in
  let exec_globals :=
    if tools_importable py then
      <["workspace" := OModule "workspace"]>
        (<["privacy" := OModule "privacy"]>
           (<["log_store" := OModule "log_store"]> exec_globals))
    else exec_globals in
  (* '__builtins__': __builtins__ *)
  mkGlobals (builtins_module py) exec_globals.

(** [run_skill(name, function, **kwargs)]: the events it causes and what
    it returns or raises. *)
Definition run_skill (fs : Store) (name : string) (function : option string)
    (kwargs : Kwargs) : list Event * Result Obj :=
  match get_skill fs name with
  | Raise e => ([], Raise e)
  | Ok skill_info =>
      let code := si_code skill_info in
      let functions := si_functions skill_info in
      match functions with
      | [] => ([], Raise (ValueError ("Skill '" +:+ name +:+ "' has no functions defined")))
      | first :: _ =>
          let target : Result string :=
            match function with
            | Some f =>
                if String.eqb f "" then Ok first
                else if bool_decide (f ∉ functions) then
                  Raise (ValueError
                           ("Function '" +:+ f +:+ "' not found in skill '" +:+ name
                            +:+ "'. " +:+ "Available: " +:+ PyStr.join ", " functions))
                else Ok f
            | None => Ok first
            end in
          match target with
          | Raise e => ([], Raise e)
          | Ok target_function =>
              let exec_globals := skill_globals in
              match exec_plain py code exec_globals with
              | Raise e => ([EvExec code exec_globals], Raise e)
              | Ok globals_after =>
                  match globals_after !! target_function with
                  | None =>
                      ([EvExec code exec_globals],
                       Raise (ValueError ("Function '" +:+ target_function
                                          +:+ "' not found after executing skill")))
                  | Some func =>
                      ([EvExec code exec_globals; EvCall func kwargs],
                       call py func kwargs)
                  end
              end
          end
      end
  end.

(** [delete_skill(name)] *)
Definition delete_skill (fs : Store) (name : string) : Result (Store * string) :=
  path ← _get_skill_path name;
  match fs !! name with
  | None => Raise (FileNotFoundError ("Skill '" +:+ name +:+ "' not found"))
  | Some _ => Ok (delete name fs, "Skill '" +:+ name +:+ "' deleted")
  end.

(** [parts[-1] = str(int(parts[-1]) + 1)] *)
Definition bump_last (parts : list string) : Result (list string) :=
  match reverse parts with
  | [] => Raise (IndexError "list index out of range")
  | last :: front =>
      n ← py_int last;
      next ← str_int (n + 1);
      Ok ((reverse front ++ [next])%list)
  end.

(** [update_skill(name, code, description, parameters, returns, example)];
    [None] is an argument left out. *)
Definition update_skill (clock : Clock) (fs : Store) (name : string)
    (code description : option string) (parameters : option Params)
    (returns example : option string) : Result (Store * SaveReport) :=
  existing ← get_skill fs name;
  let new_code := default (si_code existing) code in
  let new_description := default (si_description existing) description in
  let new_parameters := default (si_parameters existing) parameters in
  let new_returns := default (default "" (m_returns (si_metadata existing))) returns in
  let new_example := default "" example in
  let old_version := si_version existing in
  parts ← bump_last (PyStr.split "." old_version);
  let new_version := PyStr.join "." parts in
  save_skill clock fs name new_code new_description (Some new_parameters)
    new_returns new_example new_version.

(** An entry of the list [search_skills] returns. *)
Record SearchHit := mkSearchHit {
  sh_name : string;
  sh_description : string;
  sh_functions : list string;
  sh_version : string
}.

(** The loop of [search_skills] over the listed names; an exception of
    [get_skill] that derives from [Exception] skips the name. *)
Fixpoint search_loop (fs : Store) (query_lower : string) (names : list string)
    : Result (list SearchHit) :=
  match names with
  | [] => Ok []
  | skill_name :: rest =>
      match get_skill fs skill_name with
      | Ok info =>
          tail ← search_loop fs query_lower rest;
          if PyStr.contains query_lower (PyStr.lower skill_name)
             || PyStr.contains query_lower (PyStr.lower (si_description info))
          then Ok (mkSearchHit skill_name (si_description info)
                     (si_functions info) (si_version info) :: tail)
          else Ok tail
      | Raise e =>
          if isinstance e "Exception" then search_loop fs query_lower rest
          else Raise e
      end
  end.

(** [search_skills(query)] *)
Definition search_skills (fs : Store) (query : string) : Result (list SearchHit) :=
  search_loop fs (PyStr.lower query) (list_skills fs).

End Operations.

End Skills.

(** ** A concrete host

    The interpreter's behaviour on a handful of snippets, written out by
    hand: the instance at which the statements below are evaluated. *)

Module Host.

Import Skills.

(** The [builtins] module: the names the configuration of
    [execute_code.py] lists, allowed and blocked. *)
Definition builtins_module : gmap string Obj :=
  set_to_map (λ n, (n, OBuiltin n))
    (ExecuteCode.RESTRICTED_BUILTINS ∪ ExecuteCode.BLOCKED_BUILTINS).

(** The real [__import__]: every module of this host can be loaded. *)
Definition real_import (name : string) : Result Obj := Ok (OModule name).

Definition other (children : list ast) : ast := Node OtherNode children.

(** [arguments] with one [arg] per parameter. *)
Definition arguments (n : nat) : ast := other (replicate n (other [])).

(** [Name(id, Load())] *)
Definition name_load : ast := other [other []].

(** [[
def double(x):
    return x*2
]] *)
Definition code_double : string :=
  "def double(x):" +:+ nl +:+ "    return x*2".
Definition tree_double : ast :=
  other [ Node (FunctionDef "double")
            [ arguments 1; other [ other [name_load; other []; other []] ] ] ].

(** [[
def f():
    return 'f'
def g():
    return 'g'
]] *)
Definition code_fg : string :=
  "def f():" +:+ nl +:+ "    return 'f'" +:+ nl
  +:+ "def g():" +:+ nl +:+ "    return 'g'".
Definition tree_fg : ast :=
  other [ Node (FunctionDef "f") [ arguments 0; other [other []] ];
          Node (FunctionDef "g") [ arguments 0; other [other []] ] ].

(** [[
def f():
    def helper():
        pass
    return helper
]] *)
Definition code_nested : string :=
  "def f():" +:+ nl +:+ "    def helper():" +:+ nl +:+ "        pass" +:+ nl
  +:+ "    return helper".
Definition tree_nested : ast :=
  other [ Node (FunctionDef "f")
            [ arguments 0;
              Node (FunctionDef "helper") [ arguments 0; other [] ];
              other [name_load] ] ].

(** [[
import os
def leak():
    return os.getcwd()
]] *)
Definition code_leak : string :=
  "import os" +:+ nl +:+ "def leak():" +:+ nl +:+ "    return os.getcwd()".
Definition tree_leak : ast :=
  other [ other [other []];
          Node (FunctionDef "leak")
            [ arguments 0; other [ other [ other [name_load; other []] ] ] ] ].

(** A snippet that reaches the built-in [TimeoutError] class through
    [Exception.__subclasses__()] and raises it:
    [[
o = [c for c in Exception.__subclasses__() if c.__name__ == 'OSError'][0]
t = [c for c in o.__subclasses__() if c.__name__ == 'TimeoutError'][0]
raise t('Code execution timed out after 5 seconds')
]] *)
Definition code_raise_timeout : string :=
  "o = [c for c in Exception.__subclasses__() if c.__name__ == 'OSError'][0]" +:+ nl
  +:+ "t = [c for c in o.__subclasses__() if c.__name__ == 'TimeoutError'][0]" +:+ nl
  +:+ "raise t('Code execution timed out after 5 seconds')".

(** [[
import time
time.sleep(10)
]] *)
Definition code_sleep : string := "import time" +:+ nl +:+ "time.sleep(10)".

(** A snippet that raises an instance of a class of its own, named
    [TimeoutError] and derived from [Exception]:
    [[
raise type('TimeoutError', (Exception,), {})('Code execution timed out after 5 seconds')
]] *)
Definition code_raise_namesake : string :=
  "raise type('TimeoutError', (Exception,), {})"
  +:+ "('Code execution timed out after 5 seconds')".

(** [[
try:
    import socket
except Exception:
    pass
]] *)
Definition code_try_import : string :=
  "try:" +:+ nl +:+ "    import socket" +:+ nl
  +:+ "except Exception:" +:+ nl +:+ "    pass".

(** A snippet that catches the exception of the alarm and goes on:
    [[
import time
try:
    time.sleep(10)
except Exception:
    time.sleep(10)
]] *)
Definition code_catch_alarm : string :=
  "import time" +:+ nl +:+ "try:" +:+ nl +:+ "    time.sleep(10)" +:+ nl
  +:+ "except Exception:" +:+ nl +:+ "    time.sleep(10)".

(** [[
async def first():
    return 1
def second():
    return 2
]] *)
Definition code_async : string :=
  "async def first():" +:+ nl +:+ "    return 1" +:+ nl
  +:+ "def second():" +:+ nl +:+ "    return 2".
Definition tree_async : ast :=
  other [ Node (AsyncFunctionDef "first") [ arguments 0; other [other []] ];
          Node (FunctionDef "second") [ arguments 0; other [other []] ] ].

Definition ast_parse (code : string) : Result ast :=
  if String.eqb code code_double then Ok tree_double
  else if String.eqb code code_fg then Ok tree_fg
  else if String.eqb code code_nested then Ok tree_nested
  else if String.eqb code code_leak then Ok tree_leak
  else if String.eqb code code_async then Ok tree_async
  else Raise (SyntaxError "invalid syntax (<unknown>, line 1)" 1 "invalid syntax").

(** A run of the given length in seconds that imports nothing: it
    outlasts the bound [seconds] when it is longer. *)
Definition lasting (duration seconds : Z) (out : string) (e : Ending) : Run :=
  mkRun out e [] (seconds <? duration).

(** A run that starts with [import name] and then does [rest]. *)
Definition importing (g : ExecGlobals) (name : string) (seconds : Z) (rest : Run)
    : Run :=
  match ExecuteCode.import_statement real_import g name with
  | Raise e => mkRun "" (Raised e) [name] (seconds <? 0)
  | Ok _ => mkRun (emitted rest) (ending rest) (name :: imported rest) (overran rest)
  end.

(** The snippets once [timeout_handler(seconds)] is entered.
    [signal.alarm(0)] arms no alarm, and a negative bound arms one that is
    decades away, so only a positive bound below the ten seconds of a
    [time.sleep(10)] interrupts it. *)
Definition exec_entered (code : string) (g : ExecGlobals) (seconds : Z) : Run :=
  let alarm_in_sleep := (0 <? seconds) && (seconds <? 10) in
  if String.eqb code "print(1+1)" then lasting 0 seconds ("2" +:+ nl) Finished
  else if String.eqb code "print('abcdef', end='')" then lasting 0 seconds "abcdef" Finished
  else if String.eqb code "import socket" then
    importing g "socket" seconds (lasting 0 seconds "" Finished)
  else if String.eqb code "import json.decoder" then
    importing g "json.decoder" seconds (lasting 0 seconds "" Finished)
  else if String.eqb code code_sleep then
    importing g "time" seconds
      (if alarm_in_sleep then mkRun "" Interrupted [] false
       else lasting 10 seconds "" Finished)
  else if String.eqb code code_catch_alarm then
    (* the handler's exception is caught by the snippet, whose second
       sleep no alarm interrupts *)
    importing g "time" seconds
      (if alarm_in_sleep then mkRun "" Finished [] true
       else lasting 10 seconds "" Finished)
  else if String.eqb code code_try_import then
    match ExecuteCode.import_statement real_import g "socket" with
    | Raise e =>
        if isinstance e "Exception" then mkRun "" Finished ["socket"] (seconds <? 0)
        else mkRun "" (Raised e) ["socket"] (seconds <? 0)
    | Ok _ => mkRun "" Finished ["socket"] (seconds <? 0)
    end
  else if String.eqb code code_raise_timeout then
    lasting 0 seconds ""
      (Raised (TimeoutError "Code execution timed out after 5 seconds"))
  else if String.eqb code code_raise_namesake then
    lasting 0 seconds ""
      (Raised (mkExc "TimeoutError" ["Exception"; "BaseException"]
                 "Code execution timed out after 5 seconds" None None))
  else if String.eqb code "raise ValueError('boom')" then
    lasting 0 seconds "" (Raised (ValueError "boom"))
  else lasting 0 seconds ""
         (Raised (SyntaxError "invalid syntax (<string>, line 1)" 1 "invalid syntax")).

(** [with timeout_handler(seconds): exec(code, g, {})] on the main thread:
    [signal.signal] succeeds, and [signal.alarm] raises for a bound that
    does not fit a C int, before [exec] is called. *)
Definition exec_governed (code : string) (g : ExecGlobals) (seconds : Z) : Run :=
  match ExecuteCode.signal_alarm seconds with
  | Raise e => mkRun "" (NotEntered e) [] false
  | Ok _ => exec_entered code g seconds
  end.

(** The globals dict as a whole, with its ['__builtins__'] entry. *)
Definition globals_dict (g : ExecGlobals) : gmap string Obj :=
  <["__builtins__" := OModule "builtins"]> (g_vars g).

(** [exec(code, g)] of a skill's code. *)
Definition exec_plain (code : string) (g : ExecGlobals) : Result (gmap string Obj) :=
  if String.eqb code code_double then
    Ok (<["double" := OFunction "double"]> (globals_dict g))
  else if String.eqb code code_fg then
    Ok (<["g" := OFunction "g"]> (<["f" := OFunction "f"]> (globals_dict g)))
  else if String.eqb code code_nested then
    Ok (<["f" := OFunction "f"]> (globals_dict g))
  else if String.eqb code code_leak then
    m ← ExecuteCode.import_statement real_import g "os";
    Ok (<["leak" := OFunction "leak"]> (<["os" := m]> (globals_dict g)))
  else if String.eqb code code_async then
    Ok (<["second" := OFunction "second"]>
          (<["first" := OFunction "first"]> (globals_dict g)))
  else Raise (SyntaxError "invalid syntax (<string>, line 1)" 1 "invalid syntax").

Definition call (func : Obj) (kwargs : Kwargs) : Result Obj :=
  match func, kwargs with
  | OFunction "double", [("x", OInt x)] => Ok (OInt (x * 2))
  | OFunction "f", [] => Ok (OStr "f")
  | OFunction "g", [] => Ok (OStr "g")
  | OFunction "leak", [] => Ok (OStr "/home/runner")
  | OFunction "first", [] => Ok (OCoroutine "first")
  | OFunction "second", [] => Ok (OInt 2)
  | _, _ => Raise (TypeError "unexpected arguments")
  end.

Definition python : Python :=
  mkPython builtins_module real_import true exec_governed exec_plain call ast_parse.

Definition SKILLS_DIR : string := "/workspace/skills".

Definition clock_2024 : Clock :=
  mkClock (mkDatetime "2024-01-01T09:00:00.000001" "2024-01-01")
          (mkDatetime "2024-01-01T09:00:00.000002" "2024-01-01")
          (mkDatetime "2024-01-01T09:00:00.000003" "2024-01-01").

Definition clock_2025 : Clock :=
  mkClock (mkDatetime "2025-06-01T12:00:00.000001" "2025-06-01")
          (mkDatetime "2025-06-01T12:00:00.000002" "2025-06-01")
          (mkDatetime "2025-06-01T12:00:00.000003" "2025-06-01").

(** The store after [save_skill("double", code_double, "doubles a number",
    example="double(x=21)")] on an empty skills directory. *)
Definition store_double : Result (Store * SaveReport) :=
  save_skill python SKILLS_DIR clock_2024 ∅ "double" code_double "doubles a number"
    None DEFAULT_RETURNS "double(x=21)" DEFAULT_VERSION.

Definition store_of (r : Result (Store * SaveReport)) : Store :=
  match r with Ok (fs, _) => fs | Raise _ => ∅ end.

(** The store after [save_skill("fg", code_fg, "two functions")]. *)
Definition store_fg : Result (Store * SaveReport) :=
  save_skill python SKILLS_DIR clock_2024 ∅ "fg" code_fg "two functions"
    None DEFAULT_RETURNS "" DEFAULT_VERSION.

(** The store after [save_skill("leak", code_leak, "working directory")]. *)
Definition store_leak : Result (Store * SaveReport) :=
  save_skill python SKILLS_DIR clock_2024 ∅ "leak" code_leak "working directory"
    None DEFAULT_RETURNS "" DEFAULT_VERSION.

(** The store after [save_skill("pair", code_async, "two callables")]. *)
Definition store_async : Result (Store * SaveReport) :=
  save_skill python SKILLS_DIR clock_2024 ∅ "pair" code_async "two callables"
    None DEFAULT_RETURNS "" DEFAULT_VERSION.

End Host.

(** A second host: [Host.python] with one more snippet,
    [raise BaseException('stop')], which the sandbox allows since
    [BaseException] is among the restricted builtins. *)
Module Host2.

Definition exec_governed (code : string) (g : ExecGlobals) (seconds : Z) : Run :=
  match ExecuteCode.signal_alarm seconds with
  | Raise e => mkRun "" (NotEntered e) [] false
  | Ok _ =>
      if String.eqb code "raise BaseException('stop')" then
        Host.lasting 0 seconds "" (Raised (builtin_exc "BaseException" [] "stop"))
      else Host.exec_entered code g seconds
  end.

Definition python : Python :=
  mkPython Host.builtins_module Host.real_import true exec_governed
    Host.exec_plain Host.call Host.ast_parse.

(** A skills directory holding [MAX_SKILLS] skills, named s0 to s99. *)
Definition store_full : Skills.Store :=
  list_to_map
    (map (λ i, ("s" +:+ PyStr.str_of_int i,
                Skills.mkSkillDir (Some Host.code_double) None None))
         (seqZ 0 Skills.MAX_SKILLS)).

End Host2.

(** ** log_store.py *)

Module LogStore.

Definition nl : string := String "010" "".

(** The text [mock_logs] of [search_logs]. *)
Definition mock_logs (service_name : string) : string :=
  nl
  +:+ "[2024-01-15 10:23:45] [INFO] Service '" +:+ service_name
      +:+ "' started successfully" +:+ nl
  +:+ "[2024-01-15 10:24:12] [INFO] User 'alex@company.com' authenticated" +:+ nl
  +:+ "[2024-01-15 10:25:33] [ERROR] Transaction tx-123 failed: Connection timed out" +:+ nl
  +:+ "[2024-01-15 10:26:01] [INFO] User 'bob@company.com' authenticated" +:+ nl
  +:+ "[2024-01-15 10:27:15] [ERROR] Transaction tx-124 failed: Insufficient funds" +:+ nl
  +:+ "[2024-01-15 10:28:42] [WARN] High memory usage detected: 85%" +:+ nl
  +:+ "[2024-01-15 10:29:03] [ERROR] Transaction tx-125 failed: NullPointerException" +:+ nl
  +:+ "[2024-01-15 10:30:21] [INFO] Database connection pool refreshed" +:+ nl
  +:+ "[2024-01-15 10:31:45] [ERROR] API request failed: HTTP 500 Internal Server Error" +:+ nl
  +:+ "[2024-01-15 10:32:10] [INFO] Cache cleared successfully" +:+ nl
  +:+ "[2024-01-15 10:33:28] [ERROR] Failed to process message: Timeout after 30s" +:+ nl
  +:+ "[2024-01-15 10:34:52] [WARN] Retry attempt 3/3 for operation op-456" +:+ nl
  +:+ "[2024-01-15 10:35:16] [ERROR] Database query failed: Connection refused" +:+ nl
  +:+ "[2024-01-15 10:36:39] [INFO] Health check passed" +:+ nl
  +:+ "[2024-01-15 10:37:55] [ERROR] Payment processing failed: Gateway unreachable" +:+ nl.

(** [if log_level: if f"[{log_level.upper()}]" not in line: continue] *)
Definition level_skips (log_level : option string) (line : string) : bool :=
  match log_level with
  | None => false
  | Some l =>
      if String.eqb l "" then false
      else
        match PyStr.upper l with
        | Some tag => negb (PyStr.contains ("[" +:+ tag +:+ "]") line)
        | None => true   (* no line holds a character above U+00FF *)
        end
  end.

(** The loop of [search_logs] over the remaining lines, with the results
    collected so far; it stops as soon as [len(results) >= limit] holds
    after an append. *)
Fixpoint search_loop (keyword : string) (limit : Z) (log_level : option string)
    (lines results : list string) : list string :=
  match lines with
  | [] => results
  | line :: rest =>
      if String.eqb (PyStr.strip line) "" then
        search_loop keyword limit log_level rest results
      else if level_skips log_level line then
        search_loop keyword limit log_level rest results
      else if PyStr.contains (PyStr.lower keyword) (PyStr.lower line) then
        let results := (results ++ [PyStr.strip line])%list in
        if PyStr.len_list results >=? limit then results
        else search_loop keyword limit log_level rest results
      else search_loop keyword limit log_level rest results
  end.

(** [search_logs(service_name, keyword, limit, log_level)] *)
Definition search_logs (service_name keyword : string) (limit : Z)
    (log_level : option string) : list string :=
  let results :=
    search_loop keyword limit log_level
      (PyStr.splitlines (mock_logs service_name)) [] in
  match results with
  | [] => ["No logs found for service '" +:+ service_name
           +:+ "' matching '" +:+ keyword +:+ "'"]
  | _ => results
  end.

End LogStore.

(** * Properties *)

Import ExecuteCode Skills.

(** ** Strings *)

Section StringFacts.

Lemma app_cons (a : ascii) (s t : string) : String a s +:+ t = String a (s +:+ t).
Proof. reflexivity. Qed.

Lemma app_assoc_str (s t u : string) : (s +:+ t) +:+ u = s +:+ (t +:+ u).
Proof. induction s as [|a s IH]; [done|]. by rewrite !app_cons, IH. Qed.

Lemma app_empty_r (s : string) : s +:+ "" = s.
Proof. induction s as [|a s IH]; [done|]. by rewrite app_cons, IH. Qed.

Lemma length_app_str (s t : string) :
  String.length (s +:+ t) = (String.length s + String.length t)%nat.
Proof. induction s as [|a s IH]; [done|]. rewrite app_cons. simpl. by rewrite IH. Qed.

Lemma length_substring_0 (n : nat) (s : string) :
  (n ≤ String.length s)%nat → String.length (substring 0 n s) = n.
Proof.
  revert s. induction n as [|n IH]; intros [|a s] Hn; simpl in *; try done; try lia.
  rewrite IH; [done | lia].
Qed.

Lemma contains_refl (s : string) : PyStr.Contains s s.
Proof. exists "", "". by rewrite app_empty_r. Qed.

Lemma contains_app_l (s t u : string) : PyStr.Contains t u → PyStr.Contains (s +:+ t) u.
Proof.
  intros (pre & post & ->). exists (s +:+ pre), post. by rewrite app_assoc_str.
Qed.

Lemma contains_app_r (s t u : string) : PyStr.Contains s u → PyStr.Contains (s +:+ t) u.
Proof.
  intros (pre & post & ->). exists pre, (post +:+ t). by rewrite !app_assoc_str.
Qed.


End StringFacts.

(** ** Blank strings and the translation of newlines *)

Lemma lstrip_blank (sp : ascii → bool) (s : string) :
  PyStr.lstrip_with sp s = "" ↔ PyStr.forallb_str sp s = true.
Proof.
  induction s as [|a s IH]; simpl; [done|].
  destruct (sp a); simpl; [done|]. split; discriminate.
Qed.

Lemma lstrip_head (sp : ascii → bool) (s : string) (a : ascii) (r : string) :
  PyStr.lstrip_with sp s = String a r → sp a = false.
Proof.
  induction s as [|b s IH]; simpl; [done|].
  destruct (sp b) eqn:Hb; [done|]. by intros [= <- _].
Qed.

Lemma rstrip_blank (sp : ascii → bool) (s : string) :
  PyStr.rstrip_with sp s = "" → PyStr.forallb_str sp s = true.
Proof.
  induction s as [|a s IH]; simpl; [done|].
  destruct (PyStr.rstrip_with sp s); [|done].
  destruct (sp a); [|done]. intros _. by apply IH.
Qed.

(** A string strips to nothing exactly when it holds blanks only. *)
Lemma strip_blank (s : string) :
  PyStr.strip s = "" ↔ PyStr.forallb_str PyStr.isspace s = true.
Proof.
  unfold PyStr.strip. split.
  - intros Hr. apply rstrip_blank in Hr.
    destruct (PyStr.lstrip_with PyStr.isspace s) as [|a r] eqn:Hl.
    + by apply lstrip_blank.
    + apply lstrip_head in Hl. simpl in Hr. by rewrite Hl in Hr.
  - intros Hs. apply lstrip_blank in Hs. by rewrite Hs.
Qed.

Lemma universal_newlines_cons (a : ascii) (s : string) :
  Ascii.eqb a "013" = false →
  PyStr.universal_newlines (String a s) = String a (PyStr.universal_newlines s).
Proof. intros Ha. simpl. by rewrite Ha. Qed.

(** Text without a carriage return is read back as it was written. *)
Lemma universal_newlines_id (s : string) :
  PyStr.mem_char "013" s = false → PyStr.universal_newlines s = s.
Proof.
  induction s as [|a s IH]; [done|]. cbn [PyStr.mem_char].
  intros [Ha Hs]%orb_false_iff. rewrite universal_newlines_cons by done.
  by rewrite IH.
Qed.

(** The translation keeps blank text blank and other text not blank, and
    does not lengthen it. *)
Lemma universal_newlines_facts (n : nat) (s : string) :
  (String.length s ≤ n)%nat →
  PyStr.forallb_str PyStr.isspace (PyStr.universal_newlines s)
  = PyStr.forallb_str PyStr.isspace s
  ∧ (String.length (PyStr.universal_newlines s) ≤ String.length s)%nat.
Proof.
  revert s. induction n as [|n IH]; intros [|a s] Hn; try done.
  { simpl in Hn. lia. }
  cbn [String.length] in Hn.
  destruct (Ascii.eqb_spec a "013") as [->|Ha].
  - destruct s as [|b s].
    + done.
    + cbn [String.length] in Hn.
      destruct (Ascii.eqb_spec b "010") as [->|Hb].
      * destruct (IH s ltac:(lia)) as [Hsp Hlen].
        change (PyStr.universal_newlines (String "013" (String "010" s)))
          with (String "010" (PyStr.universal_newlines s)).
        cbn [PyStr.forallb_str String.length]. rewrite Hsp.
        split; [done|lia].
      * destruct (IH (String b s) ltac:(simpl; lia)) as [Hsp Hlen].
        replace (PyStr.universal_newlines (String "013" (String b s)))
          with (String "010" (PyStr.universal_newlines (String b s))); cycle 1.
        { simpl. by destruct (Ascii.eqb_spec b "010"). }
        cbn [PyStr.forallb_str String.length] in *. rewrite Hsp.
        split; [done|lia].
  - destruct (IH s ltac:(lia)) as [Hsp Hlen].
    rewrite universal_newlines_cons by by apply Ascii.eqb_neq.
    cbn [PyStr.forallb_str String.length]. rewrite Hsp. split; [done|lia].
Qed.

Lemma universal_newlines_not_blank (s : string) :
  PyStr.strip s ≠ "" → PyStr.strip (PyStr.universal_newlines s) ≠ "".
Proof.
  rewrite !strip_blank.
  by rewrite (proj1 (universal_newlines_facts (String.length s) s ltac:(lia))).
Qed.

Lemma universal_newlines_len (s : string) :
  PyStr.len (PyStr.universal_newlines s) ≤ PyStr.len s.
Proof.
  unfold PyStr.len.
  pose proof (proj2 (universal_newlines_facts (String.length s) s ltac:(lia))). lia.
Qed.

(** ** execute_code *)

Section ExecuteCodeFacts.

Variable py : Python.

(** What [execute_code] does with a [str] that is not blank. *)
Lemma execute_code_runs (s : string) (timeout max_output : Z) :
  PyStr.strip s ≠ "" →
  execute_code py (PStr s) timeout max_output =
    let g := create_execution_globals py in
    let run := exec_governed py s g timeout in
    (exec_events s g (ending run),
     final ← finalize_output (emitted run) max_output;
     '(ok, err) ← try_statement timeout (ending run);
     Ok (mkEnvelope ok final.1 err final.2)).
Proof.
  intros Hs. unfold execute_code. cbn [truthy py_strip].
  destruct (String.eqb_spec s "") as [->|_]; [done|]. cbn [negb].
  destruct (String.eqb_spec (PyStr.strip s) "") as [?|_]; done.
Qed.

(** What it does with a blank one. *)
Lemma execute_code_blank (s : string) (timeout max_output : Z) :
  PyStr.strip s = "" →
  execute_code py (PStr s) timeout max_output =
    ([], Ok (validation_failure "No code provided")).
Proof.
  intros Hs. unfold execute_code. cbn [truthy py_strip].
  destruct (String.eqb_spec s "") as [->|_]; [done|]. cbn [negb].
  rewrite Hs. done.
Qed.

(** A truthy value without a [strip] attribute: the [AttributeError] of the
    first guard leaves [execute_code]. *)
Lemma execute_code_no_strip (v : PyValue) (timeout max_output : Z) :
  truthy v = true →
  (∀ s, v ≠ PStr s) →
  (∀ s, v ≠ PBytes s) →
  execute_code py v timeout max_output
  = ([], Raise (AttributeError
                  ("'" +:+ type_name v +:+ "' object has no attribute 'strip'"))).
Proof.
  intros Hv Hstr Hbytes. unfold execute_code. rewrite Hv. simpl.
  destruct v; try done.
  - by destruct (Hstr s).
  - by destruct (Hbytes s).
Qed.


(** What [str_int] gives is the decimal form. *)
Lemma str_int_ok (n : Z) (cap : string) :
  str_int n = Ok cap → cap = PyStr.str_of_int n.
Proof.
  unfold str_int. destruct (_ <=? _); [done|]. by intros [= <-].
Qed.


(** What the [finally] block leaves when it does not raise. *)
Lemma finalize_output_ok (captured : string) (max_output : Z) (final : string * bool) :
  finalize_output captured max_output = Ok final →
  final = if PyStr.len captured >? max_output
          then (PyStr.slice_to captured max_output +:+ truncation_marker max_output,
                true)
          else (captured, false).
Proof.
  unfold finalize_output. destruct (_ >? _); [|by intros [= <-]].
  destruct (str_int max_output) as [cap|e] eqn:Hcap; [|done].
  apply str_int_ok in Hcap as ->. by intros [= <-].
Qed.


End ExecuteCodeFacts.

Section ExecuteCodeOutcomes.

Variable py : Python.


(** The output and the flag of a returned envelope are those the
    [finally] block computed. *)
Lemma envelope_output (s : string) (timeout max_output : Z) (env : Envelope) :
  PyStr.strip s ≠ "" →
  (execute_code py (PStr s) timeout max_output).2 = Ok env →
  let captured := emitted (exec_governed py s (create_execution_globals py) timeout) in
  (output env, truncated env)
  = if PyStr.len captured >? max_output
    then (PyStr.slice_to captured max_output +:+ truncation_marker max_output, true)
    else (captured, false).
Proof.
  intros Hs. rewrite execute_code_runs by done. cbn zeta. cbn [snd].
  destruct (finalize_output _ _) as [final|e] eqn:Hfin; [|done].
  apply finalize_output_ok in Hfin. rewrite <- Hfin. cbn.
  destruct (try_statement _ _) as [[ok err]|e]; cbn; [|done].
  intros [= <-]. by destruct final.
Qed.

End ExecuteCodeOutcomes.





(** ** Claims about execute_code *)

(** C2, at the failing input [code = 42]: [execute_code] does not return an
    envelope for an integer passed as [code].  [not code] is false, and
    [code.strip()] raises [AttributeError] before the [isinstance] check is
    reached; the exception leaves [execute_code]. *)
Theorem C2_integer_code_raises (py : Python) (timeout max_output : Z) :
  execute_code py (PInt 42) timeout max_output =
  ([], Raise (AttributeError "'int' object has no attribute 'strip'")).
Proof. reflexivity. Qed.

(** C3 as stated fails: a request with [timeout = 0] and [max_output = 0]
    is not rejected; its snippet is handed to [exec]. *)
Lemma C3_nonpositive_bounds_not_rejected :
  ¬ (∀ (py : Python) (code : PyValue) (timeout max_output : Z),
       timeout ≤ 0 ∨ max_output ≤ 0 ∨ code = PStr "" →
       (execute_code py code timeout max_output).1 = []
       ∧ ∃ msg, (execute_code py code timeout max_output).2
                = Ok (validation_failure msg)).
Proof.
  intros H.
  destruct (H Host.python (PStr "print(1+1)") 0 0) as [Hev _]; [lia|].
  vm_compute in Hev. discriminate Hev.
Qed.

(** C3, amended: a snippet that is empty or blank fails validation with
    "No code provided" and nothing is handed to [exec], whatever [timeout]
    and [max_output] are.  Any other [str] snippet is handed to [exec]
    whatever [max_output] is and for every [timeout] with which
    [timeout_handler] is entered; when [timeout_handler] raises on entry
    (as [signal.alarm] does for a bound that does not fit a C int),
    nothing is handed to [exec], and what is returned is not the
    validation failure but the report of that exception. *)
Theorem C3_blank_snippet_rejected_before_execution
    (py : Python) (s : string) (timeout max_output : Z) :
  let run := exec_governed py s (create_execution_globals py) timeout in
  (PyStr.strip s = "" →
     execute_code py (PStr s) timeout max_output
     = ([], Ok (validation_failure "No code provided")))
  ∧ (PyStr.strip s ≠ "" → (∀ e, ending run ≠ NotEntered e) →
     (execute_code py (PStr s) timeout max_output).1
     = [EvExec s (create_execution_globals py)])
  ∧ (PyStr.strip s ≠ "" → ∀ e, ending run = NotEntered e →
     (execute_code py (PStr s) timeout max_output).1 = []
     ∧ ∀ env, (execute_code py (PStr s) timeout max_output).2 = Ok env →
         success env = false ∧ except_clauses e = Ok (error env)).
Proof.
  intros run. split; [|split].
  - intros Hs. by apply execute_code_blank.
  - intros Hs Hent. rewrite execute_code_runs by done. cbn zeta. cbn [fst].
    fold run. destruct (ending run) as [e| | |]; [by destruct (Hent e)|done..].
  - intros Hs e Hend. rewrite execute_code_runs by done. cbn zeta. cbn [fst snd].
    fold run. rewrite Hend. split; [done|]. intros env.
    destruct (finalize_output _ _) as [final|e']; [|done]. cbn.
    destruct (except_clauses e) as [err|e']; cbn; [|done].
    by intros [= <-].
Qed.

Lemma C3_blank_snippet_witness :
  execute_code Host.python (PStr (" " +:+ nl)) 0 (-1)
  = ([], Ok (validation_failure "No code provided"))
  ∧ (execute_code Host.python (PStr "print(1+1)") 0 (-1)).1
    = [EvExec "print(1+1)" (create_execution_globals Host.python)]
  ∧ (execute_code Host.python (PStr "print(1+1)") (2 ^ 31) 100).1 = [].
Proof.
  split; [|split].
  - apply (proj1 (C3_blank_snippet_rejected_before_execution
                    Host.python (" " +:+ nl) 0 (-1))).
    reflexivity.
  - apply (proj1 (proj2 (C3_blank_snippet_rejected_before_execution
                           Host.python "print(1+1)" 0 (-1)))).
    + discriminate.
    + intros e. vm_compute. discriminate.
  - refine (proj1 (proj2 (proj2 (C3_blank_snippet_rejected_before_execution
                                   Host.python "print(1+1)" (2 ^ 31) 100))
                     _ _ _)).
    + discriminate.
    + vm_compute. reflexivity.
Defined.




(** C5 as stated fails: no single marker, independent of the inputs,
    follows the truncated output; the text appended names the cap. *)
Lemma C5_no_fixed_marker :
  ¬ (∃ marker : string,
       ∀ (py : Python) (s : string) (timeout max_output : Z) (env : Envelope),
         let captured := emitted (exec_governed py s (create_execution_globals py) timeout) in
         (execute_code py (PStr s) timeout max_output).2 = Ok env →
         PyStr.len captured > max_output →
         output env = substring 0 (Z.to_nat max_output) captured +:+ marker).
Proof.
  intros [marker H].
  pose proof (H Host.python "print('abcdef', end='')" 5 1 _ eq_refl eq_refl) as H1.
  pose proof (H Host.python "print('abcdef', end='')" 5 2 _ eq_refl eq_refl) as H2.
  vm_compute in H1, H2.
  injection H1 as <-. discriminate H2.
Qed.

(** C5, amended: for a cap [max_output >= 0], captured output longer than
    the cap is returned as its first [max_output] characters followed by
    the marker [truncation_marker max_output], a text that depends on the
    cap and on nothing else, with [truncated = true]; captured output of at
    most [max_output] characters is returned unchanged with
    [truncated = false]. *)
Theorem C5_output_truncation
    (py : Python) (s : string) (timeout max_output : Z) (env : Envelope) :
  let captured := emitted (exec_governed py s (create_execution_globals py) timeout) in
  0 ≤ max_output →
  PyStr.strip s ≠ "" →
  (execute_code py (PStr s) timeout max_output).2 = Ok env →
  (PyStr.len captured > max_output →
     output env = substring 0 (Z.to_nat max_output) captured
                  +:+ truncation_marker max_output
     ∧ PyStr.len (substring 0 (Z.to_nat max_output) captured) = max_output
     ∧ truncated env = true)
  ∧ (PyStr.len captured ≤ max_output →
     output env = captured ∧ truncated env = false).
Proof.
  intros captured Hcap Hs Henv.
  pose proof (envelope_output py s timeout max_output env Hs Henv) as Hout.
  cbn zeta in Hout. fold captured in Hout. unfold PyStr.slice_to in Hout.
  split; intros Hlen.
  - rewrite (proj2 (Z.gtb_lt _ _)) in Hout by lia.
    rewrite (proj2 (Z.leb_le 0 max_output)) in Hout by done.
    injection Hout as -> ->. split; [done|]. split; [|done].
    unfold PyStr.len in *. rewrite length_substring_0; lia.
  - destruct (Z.gtb_spec (PyStr.len captured) max_output); [lia|].
    by injection Hout as -> ->.
Qed.

Lemma C5_output_truncation_witness :
  ∃ env,
    (execute_code Host.python (PStr "print('abcdef', end='')") 5 4).2 = Ok env
    ∧ output env = "abcd" +:+ truncation_marker 4
    ∧ truncated env = true.
Proof.
  eexists. split; [reflexivity|].
  pose proof (C5_output_truncation Host.python "print('abcdef', end='')" 5 4 _
                ltac:(lia) ltac:(discriminate) eq_refl) as [H _].
  destruct H as (Hout & _ & Htr); [vm_compute; reflexivity|].
  split; [exact Hout | exact Htr].
Defined.




(** ** The traversal of [ast.walk] *)

Section Walk.

Lemma size_node (k : NodeKind) (cs : list ast) :
  size (Node k cs) = S (forest_size cs).
Proof. reflexivity. Qed.

Lemma all_nodes_node (k : NodeKind) (cs : list ast) :
  all_nodes (Node k cs) = Node k cs :: forest_nodes cs.
Proof.
  simpl. f_equal. induction cs as [|c cs IH]; [done|].
  unfold forest_nodes. simpl. by rewrite IH.
Qed.

Lemma forest_size_app (ts us : list ast) :
  forest_size (ts ++ us) = (forest_size ts + forest_size us)%nat.
Proof. induction ts as [|t ts IH]; simpl; [done|]. rewrite IH. lia. Qed.

Lemma forest_nodes_app (ts us : list ast) :
  forest_nodes (ts ++ us) = (forest_nodes ts ++ forest_nodes us)%list.
Proof. unfold forest_nodes. by rewrite map_app, concat_app. Qed.

Lemma size_pos (t : ast) : (0 < size t)%nat.
Proof. destruct t. rewrite size_node. lia. Qed.

(** With fuel for every node of the queue, the loop yields each of them
    once. *)
Lemma walk_queue_nodes (fuel : nat) (todo : list ast) :
  (forest_size todo ≤ fuel)%nat →
  walk_queue fuel todo ≡ₚ forest_nodes todo.
Proof.
  revert todo. induction fuel as [|fuel IH]; intros [|[k cs] rest] Hfuel; try done.
  - exfalso. simpl in Hfuel. lia.
  - cbn [walk_queue iter_child_nodes].
    rewrite IH.
    + rewrite forest_nodes_app. unfold forest_nodes at 3. cbn [map concat].
      rewrite all_nodes_node. fold (forest_nodes rest). cbn [app].
      constructor. apply Permutation_app_comm.
    + rewrite forest_size_app. cbn [forest_size fold_right] in Hfuel.
      rewrite size_node in Hfuel. fold (forest_size rest) in Hfuel. lia.
Qed.

(** [ast.walk] visits every node of the tree, each once. *)
Lemma walk_all_nodes (tree : ast) : walk tree ≡ₚ all_nodes tree.
Proof.
  unfold walk. rewrite walk_queue_nodes.
  - unfold forest_nodes. simpl. by rewrite app_nil_r.
  - simpl. lia.
Qed.

End Walk.

(** ** The skill store *)

Section SkillFacts.

Variable py : Python.
Variable SKILLS_DIR : string.

(** A successful [save_skill]: the code parsed, some function definition
    was found, and the three files of the skill were written anew. *)
Lemma save_skill_ok (clock : Clock) (fs fs' : Store)
    (name code description : string) (parameters : option Params)
    (returns example version : string) (r : SaveReport) :
  save_skill py SKILLS_DIR clock fs name code description parameters
    returns example version = Ok (fs', r) →
  ∃ tree,
    ast_parse py code = Ok tree
    ∧ omap function_name (walk tree) ≠ []
    ∧ sr_functions r = omap function_name (walk tree)
    ∧ fs' = <[name := skill_files clock name code description parameters
                        returns example version
                        (omap function_name (walk tree))]> fs.
Proof.
  unfold save_skill, _get_skill_path.
destruct (_validate_skill_name name) as [[]|e]; simpl; [|done].
  destruct (_ && _); [done|].
  unfold _validate_code.
  destruct (_ || _); simpl; [done|].
  destruct (_ >? _); simpl; [done|].
  destruct (ast_parse py code) as [tree|e]; simpl.
  - destruct (omap function_name (walk tree)) as [|f fns] eqn:Hf; [done|].
    intros [= <- <-]. exists tree. rewrite Hf. done.
  - destruct (isinstance e "SyntaxError"); done.
Qed.

(** [update_skill] ends in a [save_skill] of the same name. *)
Lemma update_skill_saves (clock : Clock) (fs fs' : Store) (name : string)
    (code description : option string) (parameters : option Params)
    (returns example : option string) (r : SaveReport) :
  update_skill py SKILLS_DIR clock fs name code description parameters
    returns example = Ok (fs', r) →
  ∃ existing new_version,
    get_skill SKILLS_DIR fs name = Ok existing
    ∧ save_skill py SKILLS_DIR clock fs name
        (default (si_code existing) code)
        (default (si_description existing) description)
        (Some (default (si_parameters existing) parameters))
        (default (default "" (m_returns (si_metadata existing))) returns)
        (default "" example) new_version = Ok (fs', r).
Proof.
  unfold update_skill.
  destruct (get_skill SKILLS_DIR fs name) as [existing|e];
    cbn [mbind result_bind]; [|done].
  destruct (bump_last _) as [parts|e]; cbn [mbind result_bind]; [|done].
  intros H. by exists existing, (PyStr.join "." parts).
Qed.

(** When it succeeds, [bump_last] has read the last component as an
    integer and replaced it by the numeral of its successor. *)
Lemma bump_last_snoc (front : list string) (last : string) (parts : list string) :
  bump_last (front ++ [last]) = Ok parts →
  ∃ n, py_int last = Ok n
       ∧ parts = (front ++ [PyStr.str_of_int (n + 1)])%list.
Proof.
  unfold bump_last. rewrite reverse_snoc.
  destruct (py_int last) as [n|e]; [|done]. cbn [mbind result_bind].
  destruct (str_int (n + 1)) as [next|e] eqn:Hnext; [|done].
  apply str_int_ok in Hnext as ->. rewrite reverse_involutive.
  intros [= <-]. by exists n.
Qed.

(** A successful [update_skill] writes the old version with its trailing
    component [last] replaced by [str(int(last) + 1)]. *)
Lemma update_skill_version (clock : Clock) (fs fs' : Store) (name : string)
    (code description : option string) (parameters : option Params)
    (returns example : option string) (r : SaveReport)
    (existing : SkillInfo) (front : list string) (last : string) (n : Z) :
  get_skill SKILLS_DIR fs name = Ok existing →
  PyStr.split "." (si_version existing) = (front ++ [last])%list →
  py_int last = Ok n →
  update_skill py SKILLS_DIR clock fs name code description parameters
    returns example = Ok (fs', r) →
  m_version <$> (fs' !! name ≫= metadata_json)
  = Some (Some (PyStr.join "." (front ++ [PyStr.str_of_int (n + 1)]))).
Proof.
  intros Hget Hsplit Hn. unfold update_skill. rewrite Hget.
  cbn [mbind result_bind]. rewrite Hsplit.
  destruct (bump_last (front ++ [last])) as [parts|e] eqn:Hb; [|done].
  apply bump_last_snoc in Hb as (n' & Hn' & ->).
  rewrite Hn in Hn'. injection Hn' as <-.
  intros (tree & _ & _ & _ & ->)%save_skill_ok.
  by rewrite lookup_insert_eq.
Qed.

(** An [update_skill] that leaves the example out writes the files of the
    skill with the empty example, whatever the [SKILL.md] before held. *)
Lemma update_skill_example_left_out (clock : Clock) (fs fs' : Store) (name : string)
    (code description : option string) (parameters : option Params)
    (returns : option string) (r : SaveReport) :
  update_skill py SKILLS_DIR clock fs name code description parameters
    returns None = Ok (fs', r) →
  ∃ code' description' parameters' returns' version' functions',
    fs' !! name = Some (skill_files clock name code' description' parameters'
                          returns' "" version' functions').
Proof.
  intros (existing & v & _ & Hs)%update_skill_saves.
  apply save_skill_ok in Hs as (tree & _ & _ & _ & ->).
  rewrite lookup_insert_eq. by do 6 eexists.
Qed.

(** Whatever [run_skill] hands to [exec], it hands it with the host's
    whole [builtins] as ['__builtins__']. *)
Lemma run_skill_exec_globals (fs : Store) (name : string)
    (function : option string) (kwargs : Kwargs) (code : string) (g : ExecGlobals) :
  EvExec code g ∈ (run_skill py SKILLS_DIR fs name function kwargs).1 →
  g = skill_globals py ∧ g_builtins g = builtins_module py.
Proof.
  unfold run_skill.
  destruct (get_skill SKILLS_DIR fs name) as [info|e]; simpl; [|by intros ?%elem_of_nil].
  destruct (si_functions info) as [|first rest]; simpl; [by intros ?%elem_of_nil|].
  set (target := match function with Some _ => _ | None => _ end).
  destruct target as [t|e]; simpl; [|by intros ?%elem_of_nil].
  destruct (exec_plain py _ _) as [ga|e]; simpl.
  - destruct (ga !! t); simpl; intros Hin;
      repeat (apply elem_of_cons in Hin as [Hin|Hin]; [by simplify_eq|]);
      by apply elem_of_nil in Hin.
  - intros Hin. apply elem_of_cons in Hin as [Hin|Hin]; [by simplify_eq|].
    by apply elem_of_nil in Hin.
Qed.

End SkillFacts.

(** ** Claims about the skill store *)

(** C1, at the failing input (the skill "leak", whose code imports [os]):
    [run_skill] hands the skill's code to [exec] with the host's whole
    [builtins], where [open] is bound and [__import__] is the real one, so
    [import os] succeeds and the function is called; under the namespace
    [create_execution_globals] builds, [open] is unbound and the same
    import is rejected. *)
Theorem C1_run_skill_namespace_unrestricted :
  let fs := Host.store_of Host.store_leak in
  let sandbox := create_execution_globals Host.python in
  ∃ g,
    run_skill Host.python Host.SKILLS_DIR fs "leak" None []
    = ([EvExec Host.code_leak g; EvCall (OFunction "leak") []], Ok (OStr "/home/runner"))
    ∧ g_builtins g = builtins_module Host.python
    ∧ g_builtins g !! "open" = Some (OBuiltin "open")
    ∧ g_builtins g !! "__import__" = Some (OBuiltin "__import__")
    ∧ import_statement Host.real_import g "os" = Ok (OModule "os")
    ∧ g_builtins sandbox !! "open" = None
    ∧ g_builtins sandbox !! "__import__" = Some (OSafeImport ALLOWED_IMPORTS)
    ∧ ∃ msg, import_statement Host.real_import sandbox "os" = Raise (ImportError msg).
Proof.
  exists (skill_globals Host.python).
  split; [vm_compute; reflexivity|].
  split; [reflexivity|].
  split; [vm_compute; reflexivity|].
  split; [vm_compute; reflexivity|].
  split; [vm_compute; reflexivity|].
  split; [vm_compute; reflexivity|].
  split; [vm_compute; reflexivity|].
  eexists. vm_compute. reflexivity.
Qed.

(** C7 as stated fails: the names [save] returns are not the top-level
    callables; a function defined inside another one is among them. *)
Lemma C7_nested_definition_extracted :
  ¬ (∀ (py : Python) (dir : string) (clock : Clock) (fs fs' : Store)
       (name code description : string) (parameters : option Params)
       (returns example version : string) (tree : ast) (r : SaveReport),
       ast_parse py code = Ok tree →
       save_skill py dir clock fs name code description parameters
         returns example version = Ok (fs', r) →
       ∀ x, x ∈ sr_functions r ↔ x ∈ top_level_callables tree).
Proof.
  intros H.
  destruct (save_skill Host.python Host.SKILLS_DIR Host.clock_2024 ∅ "outer"
              Host.code_nested "nested" None DEFAULT_RETURNS "" DEFAULT_VERSION)
    as [[fs' r]|e] eqn:Hsave; [|vm_compute in Hsave; discriminate Hsave].
  specialize (H Host.python Host.SKILLS_DIR Host.clock_2024 ∅ fs' "outer"
                Host.code_nested "nested" None DEFAULT_RETURNS "" DEFAULT_VERSION
                Host.tree_nested r eq_refl Hsave "helper").
  apply save_skill_ok in Hsave as (tree & Htree & _ & Hr & _).
  vm_compute in Htree. injection Htree as <-.
  rewrite Hr in H. vm_compute in H.
  destruct H as [H _].
  specialize (H ltac:(right; left)).
  inversion H as [|? ? ? Hnil]; subst. inversion Hnil.
Qed.

(** C7, amended: [save] finds the functions of the code by walking the
    tree [ast.parse] gives and never runs the code.  The names it extracts
    and returns are those of all the [FunctionDef] nodes of the tree, at
    any depth (nested functions and methods included; no [async def], no
    class), in the order of [ast.walk]; it fails validation when the tree
    has no such node. *)
Theorem C7_save_extracts_function_definitions
    (py : Python) (dir : string) (clock : Clock) (fs : Store)
    (name code description : string) (parameters : option Params)
    (returns example version : string) (tree : ast) :
  let fns := omap function_name (walk tree) in
  _validate_skill_name name = Ok () →
  PyStr.len_list (list_skills fs) < MAX_SKILLS ∨ name ∈ list_skills fs →
  PyStr.strip code ≠ "" →
  PyStr.len code ≤ MAX_SKILL_SIZE →
  ast_parse py code = Ok tree →
  fns ≡ₚ omap function_name (all_nodes tree)
  ∧ (fns = [] →
       save_skill py dir clock fs name code description parameters
         returns example version
       = Raise (ValueError "Code must define at least one function"))
  ∧ (fns ≠ [] →
       ∃ r, save_skill py dir clock fs name code description parameters
              returns example version
            = Ok (<[name := skill_files clock name code description parameters
                              returns example version fns]> fs, r)
            ∧ sr_functions r = fns)
  ∧ (∀ py', ast_parse py' code = Ok tree →
       save_skill py' dir clock fs name code description parameters
         returns example version
       = save_skill py dir clock fs name code description parameters
           returns example version).
Proof.
  intros fns Hname Hroom Hblank Hsize Hparse.
  assert (Hsave : ∀ p, ast_parse p code = Ok tree →
            save_skill p dir clock fs name code description parameters
              returns example version
            = match fns with
              | [] => Raise (ValueError "Code must define at least one function")
              | _ => Ok (<[name := skill_files clock name code description parameters
                                     returns example version fns]> fs,
                         mkSaveReport true name (dir +:+ "/" +:+ name) fns
                           ("Skill '" +:+ name +:+ "' saved with functions: "
                            +:+ PyStr.join ", " fns))
              end).
  { intros p Hp. unfold save_skill, _get_skill_path. rewrite Hname. simpl.
    replace (_ && _) with false; cycle 1.
    { symmetry. apply andb_false_iff. destruct Hroom as [Hlt|Hin].
      - left. rewrite Z.geb_leb. apply Z.leb_gt. lia.
      - right. apply bool_decide_eq_false_2. tauto. }
    unfold _validate_code.
    destruct (String.eqb_spec code "") as [->|_]; [done|].
    destruct (String.eqb_spec (PyStr.strip code) "") as [?|_]; [done|]. simpl.
    destruct (Z.gtb_spec (PyStr.len code) MAX_SKILL_SIZE); [lia|].
    rewrite Hp. simpl. fold fns. by destruct fns. }
  split; [|split; [|split]].
  - subst fns. by rewrite walk_all_nodes.
  - intros Hnil. rewrite (Hsave py Hparse), Hnil. done.
  - intros Hne. rewrite (Hsave py Hparse). destruct fns; [done|].
    eexists. split; reflexivity.
  - intros py' Hp'. by rewrite (Hsave py' Hp'), (Hsave py Hparse).
Qed.

Lemma C7_save_extracts_witness :
  ∃ r, save_skill Host.python Host.SKILLS_DIR Host.clock_2024 ∅ "outer"
         Host.code_nested "nested" None DEFAULT_RETURNS "" DEFAULT_VERSION
       = Ok (<["outer" := skill_files Host.clock_2024 "outer" Host.code_nested "nested"
                            None DEFAULT_RETURNS "" DEFAULT_VERSION ["f"; "helper"]]> ∅, r)
       ∧ sr_functions r = ["f"; "helper"].
Proof.
  refine (proj1 (proj2 (proj2
    (C7_save_extracts_function_definitions Host.python Host.SKILLS_DIR Host.clock_2024 ∅
       "outer" Host.code_nested "nested" None DEFAULT_RETURNS "" DEFAULT_VERSION
       Host.tree_nested _ _ _ _ _))) _).
  - reflexivity.
  - left. vm_compute. reflexivity.
  - discriminate.
  - vm_compute. discriminate.
  - reflexivity.
  - discriminate.
Defined.

(** C8 as stated fails, twice.  The callable [run] invokes by default is
    not the first one the code declares: for a skill whose code declares
    [async def first] and then [def second], only [second] is recorded,
    and run with no function argument invokes [second].  And run with the
    empty string as function name, which no skill records, does not fail;
    it invokes the first recorded function. *)
Lemma C8_run_departs_from_declarations :
  ¬ (∀ (py : Python) (dir : string) (fs : Store) (name f g : string)
       (rest : list string) (info : SkillInfo) (tree : ast) (kwargs : Kwargs)
       (after : gmap string Obj) (objf : Obj),
       get_skill dir fs name = Ok info →
       ast_parse py (si_code info) = Ok tree →
       top_level_callables tree = f :: g :: rest →
       exec_plain py (si_code info) (skill_globals py) = Ok after →
       after !! f = Some objf →
       run_skill py dir fs name None kwargs
       = ([EvExec (si_code info) (skill_globals py); EvCall objf kwargs],
          call py objf kwargs))
  ∧ ¬ (∀ (py : Python) (dir : string) (fs : Store) (name h : string)
         (info : SkillInfo) (kwargs : Kwargs),
         get_skill dir fs name = Ok info →
         h ∉ si_functions info →
         ∃ e, run_skill py dir fs name (Some h) kwargs = ([], Raise e)).
Proof.
  split; intros H.
  - assert (Hget : ∃ info,
              get_skill Host.SKILLS_DIR (Host.store_of Host.store_async) "pair" = Ok info
              ∧ si_code info = Host.code_async).
    { eexists. split; [vm_compute; reflexivity|]. reflexivity. }
    destruct Hget as (info & Hget & Hcode).
    assert (Hparse : ast_parse Host.python (si_code info) = Ok Host.tree_async).
    { rewrite Hcode. vm_compute. reflexivity. }
    assert (Hexec : ∃ after,
              exec_plain Host.python (si_code info) (skill_globals Host.python) = Ok after
              ∧ after !! "first" = Some (OFunction "first")).
    { rewrite Hcode. eexists. split; vm_compute; reflexivity. }
    destruct Hexec as (after & Hexec & Hfirst).
    specialize (H Host.python Host.SKILLS_DIR _ "pair" "first" "second" [] info
                  Host.tree_async [] after (OFunction "first")
                  Hget Hparse eq_refl Hexec Hfirst).
    assert (Hrun : (run_skill Host.python Host.SKILLS_DIR
                      (Host.store_of Host.store_async) "pair" None []).2
                   = Ok (OInt 2)) by (vm_compute; reflexivity).
    rewrite H in Hrun. vm_compute in Hrun. discriminate Hrun.
  - destruct (H Host.python Host.SKILLS_DIR (Host.store_of Host.store_fg) "fg" ""
                _ [] eq_refl) as [e He].
    + vm_compute. intros Hin.
      repeat (inversion Hin as [|? ? ? Hin']; subst; clear Hin; rename Hin' into Hin).
    + vm_compute in He. discriminate He.
Qed.

(** C8, amended.  What [run] selects from is the list of functions
    recorded for the skill (the names of the [def] statements that [save]
    found in the code, in the order of [ast.walk]), not the callables the
    code declares.  For a skill whose recorded functions are [f], then
    [g], then possibly others, and whose code binds them: run with no
    function argument invokes [f], and so does run with the empty
    function name; run with [function = g] invokes [g]; run with a
    non-empty function name that is not recorded fails with a
    [ValueError] naming the function and the recorded functions, before
    the code is executed or any callable invoked. *)
Theorem C8_run_selects_callable
    (py : Python) (dir : string) (fs : Store) (name f g : string)
    (rest : list string) (info : SkillInfo) (kwargs : Kwargs)
    (after : gmap string Obj) (objf objg : Obj) :
  let globals := skill_globals py in
  get_skill dir fs name = Ok info →
  si_functions info = f :: g :: rest →
  g ≠ "" →
  exec_plain py (si_code info) globals = Ok after →
  after !! f = Some objf →
  after !! g = Some objg →
  run_skill py dir fs name None kwargs
  = ([EvExec (si_code info) globals; EvCall objf kwargs], call py objf kwargs)
  ∧ run_skill py dir fs name (Some "") kwargs
    = ([EvExec (si_code info) globals; EvCall objf kwargs], call py objf kwargs)
  ∧ run_skill py dir fs name (Some g) kwargs
    = ([EvExec (si_code info) globals; EvCall objg kwargs], call py objg kwargs)
  ∧ ∀ h, h ≠ "" → h ∉ f :: g :: rest →
      ∃ msg, run_skill py dir fs name (Some h) kwargs = ([], Raise (ValueError msg))
             ∧ PyStr.Contains msg h
             ∧ PyStr.Contains msg (PyStr.join ", " (f :: g :: rest)).
Proof.
  intros globals Hget Hfns Hg Hexec Hf Hgo.
  unfold run_skill. rewrite Hget, Hfns. split; [|split; [|split]].
  - fold globals. by rewrite Hexec, Hf.
  - cbn [String.eqb]. fold globals. by rewrite Hexec, Hf.
  - destruct (String.eqb_spec g "") as [?|_]; [done|].
    rewrite bool_decide_eq_false_2 by (intros Hn; apply Hn; set_solver).
    fold globals. by rewrite Hexec, Hgo.
  - intros h Hh Hnot.
    destruct (String.eqb_spec h "") as [?|_]; [done|].
    rewrite bool_decide_eq_true_2 by done.
    eexists. split; [reflexivity|]. split.
    + apply contains_app_l. apply contains_app_r. apply contains_refl.
    + do 6 apply contains_app_l. apply contains_refl.
Qed.

Lemma C8_run_selects_callable_witness :
  run_skill Host.python Host.SKILLS_DIR (Host.store_of Host.store_fg) "fg" (Some "g") []
  = ([EvExec Host.code_fg (skill_globals Host.python); EvCall (OFunction "g") []],
     Ok (OStr "g")).
Proof.
  assert (Hget : ∃ info,
            get_skill Host.SKILLS_DIR (Host.store_of Host.store_fg) "fg" = Ok info
            ∧ si_code info = Host.code_fg ∧ si_functions info = ["f"; "g"]).
  { eexists. split; [vm_compute; reflexivity|]. split; reflexivity. }
  destruct Hget as (info & Hget & Hcode & Hfns).
  assert (Hexec : ∃ after,
            exec_plain Host.python (si_code info) (skill_globals Host.python) = Ok after
            ∧ after !! "f" = Some (OFunction "f")
            ∧ after !! "g" = Some (OFunction "g")).
  { rewrite Hcode. eexists. split; [vm_compute; reflexivity|].
    split; vm_compute; reflexivity. }
  destruct Hexec as (after & Hexec & Hf & Hg).
  pose proof (proj1 (proj2 (proj2
    (C8_run_selects_callable Host.python Host.SKILLS_DIR _ "fg" "f" "g" [] info []
       after _ _ Hget Hfns ltac:(discriminate) Hexec Hf Hg)))) as H.
  rewrite Hcode in H. exact H.
Defined.

(** C9, at the failing input (the skill "double" saved with the example
    [double(x=21)], then updated with a new description only): the example
    was not supplied, yet the "Example" section of the rewritten [SKILL.md]
    holds the default text instead of the saved example.  The description
    is the new one and the version goes from 1.0.0 to 1.0.1. *)
Theorem C9_update_resets_example :
  let fs := Host.store_of Host.store_double in
  let fs' := Host.store_of
               (update_skill Host.python Host.SKILLS_DIR Host.clock_2025 fs "double"
                  None (Some "doubles its argument") None None None) in
  (SKILL_md <$> fs !! "double")
  = Some (Some (SKILL_MD_TEMPLATE "double" "doubles a number" "" "None"
                  DEFAULT_RETURNS "double(x=21)" "2024-01-01" "1.0.0"))
  ∧ (SKILL_md <$> fs' !! "double")
    = Some (Some (SKILL_MD_TEMPLATE "double" "doubles its argument" "" "None"
                    DEFAULT_RETURNS
                    ("result = skills.run_skill(" +:+ dq +:+ "double" +:+ dq +:+ ")")
                    "2025-06-01" "1.0.1")).
Proof. split; vm_compute; reflexivity. Qed.

(** C10: a [save] over an existing name, and an [update] (which saves),
    write a metadata whose ['created'] entry is the clock's reading at that
    save, whatever the entry was before. *)
Theorem C10_overwrite_resets_created
    (py : Python) (dir : string) (clock : Clock) (fs fs' : Store)
    (name : string) (old : SkillDir) (r : SaveReport) :
  fs !! name = Some old →
  (∀ code description parameters returns example version,
     save_skill py dir clock fs name code description parameters
       returns example version = Ok (fs', r) →
     m_created <$> (fs' !! name ≫= metadata_json)
     = Some (Some (isoformat (now_created clock))))
  ∧ (∀ code description parameters returns example,
       update_skill py dir clock fs name code description parameters
         returns example = Ok (fs', r) →
       m_created <$> (fs' !! name ≫= metadata_json)
       = Some (Some (isoformat (now_created clock)))).
Proof.
  intros _.
  assert (Hsave : ∀ code description parameters returns example version,
            save_skill py dir clock fs name code description parameters
              returns example version = Ok (fs', r) →
            m_created <$> (fs' !! name ≫= metadata_json)
            = Some (Some (isoformat (now_created clock)))).
  { intros ?????? (tree & _ & _ & _ & ->)%save_skill_ok.
    by rewrite lookup_insert_eq. }
  split; [exact Hsave|].
  intros ????? (existing & v & _ & Hs)%update_skill_saves.
  by eapply Hsave.
Qed.

Lemma C10_overwrite_resets_created_witness :
  let fs := Host.store_of Host.store_double in
  let fs' := Host.store_of
               (update_skill Host.python Host.SKILLS_DIR Host.clock_2025 fs "double"
                  None (Some "doubles its argument") None None None) in
  m_created <$> (fs !! "double" ≫= metadata_json)
  = Some (Some "2024-01-01T09:00:00.000001")
  ∧ m_created <$> (fs' !! "double" ≫= metadata_json)
    = Some (Some "2025-06-01T12:00:00.000001").
Proof.
  split; [vm_compute; reflexivity|].
  destruct (update_skill Host.python Host.SKILLS_DIR Host.clock_2025
              (Host.store_of Host.store_double) "double"
              None (Some "doubles its argument") None None None)
    as [[fs' r]|e] eqn:Hup; [|vm_compute in Hup; discriminate Hup].
  destruct (Host.store_of Host.store_double !! "double") as [old|] eqn:Hold;
    [|vm_compute in Hold; discriminate Hold].
  exact (proj2 (C10_overwrite_resets_created Host.python Host.SKILLS_DIR Host.clock_2025
                  _ fs' "double" old r Hold) _ _ _ _ _ Hup).
Defined.


(** * Further properties of the skill store *)

Section SkillStoreFacts.

Variable py : Python.
Variable SKILLS_DIR : string.

(** The skills [list_skills] names are the directories that hold an
    [implementation.py]. *)
Lemma elem_of_list_skills (fs : Store) (name : string) :
  name ∈ list_skills fs ↔
  ∃ d, fs !! name = Some d ∧ is_Some (implementation_py d).
Proof.
  unfold list_skills, PyStr.sorted.
  rewrite merge_sort_Permutation, elem_of_elements, elem_of_dom.
  split.
  - intros [d [Hd Himpl]%map_lookup_filter_Some]. eauto.
  - intros (d & Hd & Himpl). exists d. by apply map_lookup_filter_Some.
Qed.

Lemma length_list_skills (fs : Store) :
  length (list_skills fs)
  = base.size (dom (filter (λ kv : string * SkillDir, is_Some (implementation_py kv.2)) fs)
               : gset string).
Proof.
  unfold list_skills, PyStr.sorted. by rewrite merge_sort_Permutation.
Qed.

(** What a successful [save_skill] has checked. *)
Lemma save_skill_checks (clock : Clock) (fs fs' : Store)
    (name code description : string) (parameters : option Params)
    (returns example version : string) (r : SaveReport) :
  save_skill py SKILLS_DIR clock fs name code description parameters
    returns example version = Ok (fs', r) →
  _validate_skill_name name = Ok ()
  ∧ (PyStr.len_list (list_skills fs) < MAX_SKILLS ∨ name ∈ list_skills fs)
  ∧ PyStr.strip code ≠ ""
  ∧ PyStr.len code ≤ MAX_SKILL_SIZE
  ∧ sr_name r = name
  ∧ sr_path r = SKILLS_DIR +:+ "/" +:+ name.
Proof.
  unfold save_skill, _get_skill_path.
  destruct (_validate_skill_name name) as [[]|e]; simpl; [|done].
  destruct (Z.geb_spec (PyStr.len_list (list_skills fs)) MAX_SKILLS) as [Hge|Hlt];
    simpl.
  - case_bool_decide as Hin; [done|].
    intros H. split; [done|]. split; [by right|]. revert H.
    unfold _validate_code.
    destruct (String.eqb_spec code "") as [->|_]; [done|].
    destruct (String.eqb_spec (PyStr.strip code) "") as [?|Hb]; [done|]. simpl.
    destruct (Z.gtb_spec (PyStr.len code) MAX_SKILL_SIZE); simpl; [done|].
    destruct (ast_parse py code) as [tree|e]; simpl.
    + destruct (omap function_name (walk tree)); [done|]. intros [= <- <-].
      repeat split; try done; lia.
    + destruct (isinstance e "SyntaxError"); done.
  - intros H. split; [done|]. split; [by left|]. revert H.
    unfold _validate_code.
    destruct (String.eqb_spec code "") as [->|_]; [done|].
    destruct (String.eqb_spec (PyStr.strip code) "") as [?|Hb]; [done|]. simpl.
    destruct (Z.gtb_spec (PyStr.len code) MAX_SKILL_SIZE); simpl; [done|].
    destruct (ast_parse py code) as [tree|e]; simpl.
    + destruct (omap function_name (walk tree)); [done|]. intros [= <- <-].
      repeat split; try done; lia.
    + destruct (isinstance e "SyntaxError"); done.
Qed.

(** The conditions under which [save_skill] succeeds, and what it then
    writes and returns. *)
Lemma save_skill_when_valid (clock : Clock) (fs : Store)
    (name code description : string) (parameters : option Params)
    (returns example version : string) (tree : ast) :
  _validate_skill_name name = Ok () →
  PyStr.len_list (list_skills fs) < MAX_SKILLS ∨ name ∈ list_skills fs →
  PyStr.strip code ≠ "" →
  PyStr.len code ≤ MAX_SKILL_SIZE →
  ast_parse py code = Ok tree →
  omap function_name (walk tree) ≠ [] →
  save_skill py SKILLS_DIR clock fs name code description parameters
    returns example version
  = Ok (<[name := skill_files clock name code description parameters
                    returns example version (omap function_name (walk tree))]> fs,
        mkSaveReport true name (SKILLS_DIR +:+ "/" +:+ name)
          (omap function_name (walk tree))
          ("Skill '" +:+ name +:+ "' saved with functions: "
           +:+ PyStr.join ", " (omap function_name (walk tree)))).
Proof.
  intros Hname Hroom Hblank Hsize Hparse Hfns.
  unfold save_skill, _get_skill_path. rewrite Hname. simpl.
  replace (_ && _) with false; cycle 1.
  { symmetry. apply andb_false_iff. destruct Hroom as [Hlt|Hin].
    - left. rewrite Z.geb_leb. apply Z.leb_gt. lia.
    - right. apply bool_decide_eq_false_2. tauto. }
  unfold _validate_code.
  destruct (String.eqb_spec code "") as [->|_]; [done|].
  destruct (String.eqb_spec (PyStr.strip code) "") as [?|_]; [done|]. simpl.
  destruct (Z.gtb_spec (PyStr.len code) MAX_SKILL_SIZE); [lia|].
  rewrite Hparse. simpl.
  by destruct (omap function_name (walk tree)).
Qed.

End SkillStoreFacts.

Section SkillStoreOperations.

Variable py : Python.
Variable SKILLS_DIR : string.

Local Abbreviation has_impl :=
  (λ kv : string * SkillDir, is_Some (implementation_py kv.2)).

(** The listed names after a skill directory with an implementation is
    written. *)
Lemma listed_insert (fs : Store) (name : string) (d : SkillDir) :
  is_Some (implementation_py d) →
  (dom (filter has_impl (<[name := d]> fs)) : gset string)
  = {[name]} ∪ dom (filter has_impl fs).
Proof.
  intros Hd. rewrite map_filter_insert_True by done. by rewrite dom_insert_L.
Qed.

Lemma skill_files_has_impl (clock : Clock) (name code description : string)
    (parameters : option Params) (returns example version : string)
    (fns : list string) :
  is_Some (implementation_py
             (skill_files clock name code description parameters returns
                example version fns)).
Proof. by eexists. Qed.

(** What [get_skill] loads after a successful [save_skill]. *)
Lemma save_skill_loads (clock : Clock) (fs fs' : Store)
    (name code description : string) (parameters : option Params)
    (returns example version : string) (r : SaveReport) :
  save_skill py SKILLS_DIR clock fs name code description parameters
    returns example version = Ok (fs', r) →
  ∃ info,
    get_skill SKILLS_DIR fs' name = Ok info
    ∧ si_name info = name
    ∧ si_code info = PyStr.universal_newlines code
    ∧ si_description info = description
    ∧ si_parameters info = default [] parameters
    ∧ m_returns (si_metadata info) = Some returns
    ∧ si_version info = version
    ∧ si_functions info = sr_functions r
    ∧ si_path info = sr_path r.
Proof.
  intros Hs.
  destruct (save_skill_checks py SKILLS_DIR _ _ _ _ _ _ _ _ _ _ _ Hs)
    as (Hname & _ & _ & _ & _ & Hpath).
  apply save_skill_ok in Hs as (tree & _ & _ & Hr & ->).
  unfold get_skill, _get_skill_path. rewrite Hname. simpl.
  rewrite lookup_insert_eq. eexists. split; [reflexivity|].
  simpl. by rewrite Hr, Hpath.
Qed.

(** After a successful [save_skill] the name is listed. *)
Lemma save_skill_listed (clock : Clock) (fs fs' : Store)
    (name code description : string) (parameters : option Params)
    (returns example version : string) (r : SaveReport) :
  save_skill py SKILLS_DIR clock fs name code description parameters
    returns example version = Ok (fs', r) →
  name ∈ list_skills fs'.
Proof.
  intros (tree & _ & _ & _ & ->)%save_skill_ok.
  apply elem_of_list_skills. eexists. rewrite lookup_insert_eq.
  split; [done|]. apply skill_files_has_impl.
Qed.

(** X1: a skill saved then fetched comes back with the description,
    parameters, return text and version it was saved with and the
    function names and path [save_skill] reported.  Its source text comes
    back as a file read in text mode gives it: with every CR LF and every
    other CR turned into LF, hence unchanged when it holds no carriage
    return. *)
Theorem save_then_get (clock : Clock) (fs fs' : Store)
    (name code description : string) (parameters : option Params)
    (returns example version : string) (r : SaveReport) :
  save_skill py SKILLS_DIR clock fs name code description parameters
    returns example version = Ok (fs', r) →
  ∃ info,
    get_skill SKILLS_DIR fs' name = Ok info
    ∧ si_name info = name
    ∧ si_code info = PyStr.universal_newlines code
    ∧ (PyStr.mem_char "013" code = false → si_code info = code)
    ∧ si_description info = description
    ∧ si_parameters info = default [] parameters
    ∧ m_returns (si_metadata info) = Some returns
    ∧ si_version info = version
    ∧ si_functions info = sr_functions r
    ∧ si_path info = sr_path r.
Proof.
  intros Hs.
  destruct (save_skill_loads _ _ _ _ _ _ _ _ _ _ _ Hs)
    as (info & Hget & Hname & Hcode & Hrest).
  exists info. split; [done|]. split; [done|]. split; [done|]. split; [|done].
  intros Hcr. by rewrite Hcode, universal_newlines_id.
Qed.

(** X2: a successful save touches no other skill, and the listed names
    afterwards are the ones listed before together with the saved name. *)
Theorem save_frame (clock : Clock) (fs fs' : Store)
    (name code description : string) (parameters : option Params)
    (returns example version : string) (r : SaveReport) :
  save_skill py SKILLS_DIR clock fs name code description parameters
    returns example version = Ok (fs', r) →
  (∀ other, other ≠ name → fs' !! other = fs !! other)
  ∧ (∀ x, x ∈ list_skills fs' ↔ x = name ∨ x ∈ list_skills fs).
Proof.
  intros (tree & _ & _ & _ & ->)%save_skill_ok. split.
  - intros other Hne. by rewrite lookup_insert_ne.
  - intros x. rewrite !elem_of_list_skills.
    destruct (decide (x = name)) as [->|Hne].
    + rewrite lookup_insert_eq. split; [by left|]. intros _.
      eexists. split; [done|]. apply skill_files_has_impl.
    + rewrite lookup_insert_ne by done. naive_solver.
Qed.

(** X3: [list_skills] gives each skill directory that holds an
    implementation exactly once, in ascending order of the names. *)
Theorem list_skills_sorted (fs : Store) :
  StronglySorted String.le (list_skills fs)
  ∧ NoDup (list_skills fs)
  ∧ ∀ name, name ∈ list_skills fs ↔
            ∃ d, fs !! name = Some d ∧ is_Some (implementation_py d).
Proof.
  split; [|split].
  - unfold list_skills, PyStr.sorted.
    apply (StronglySorted_merge_sort String.le); apply _.
  - unfold list_skills, PyStr.sorted. rewrite merge_sort_Permutation.
    apply NoDup_elements.
  - apply elem_of_list_skills.
Qed.

(** X4: the bound on the number of skills is kept: from a store with at
    most [MAX_SKILLS] listed skills, a successful save, update or delete
    leads to a store with at most [MAX_SKILLS] listed skills. *)
Theorem skill_count_bounded (clock : Clock) (fs fs' : Store) (name : string) :
  PyStr.len_list (list_skills fs) ≤ MAX_SKILLS →
  (∀ code description parameters returns example version r,
     save_skill py SKILLS_DIR clock fs name code description parameters
       returns example version = Ok (fs', r) →
     PyStr.len_list (list_skills fs') ≤ MAX_SKILLS)
  ∧ (∀ code description parameters returns example r,
       update_skill py SKILLS_DIR clock fs name code description parameters
         returns example = Ok (fs', r) →
       PyStr.len_list (list_skills fs') ≤ MAX_SKILLS)
  ∧ (∀ msg, delete_skill SKILLS_DIR fs name = Ok (fs', msg) →
       PyStr.len_list (list_skills fs') ≤ MAX_SKILLS).
Proof.
  intros Hbound.
  assert (Hsave : ∀ code description parameters returns example version r,
     save_skill py SKILLS_DIR clock fs name code description parameters
       returns example version = Ok (fs', r) →
     PyStr.len_list (list_skills fs') ≤ MAX_SKILLS).
  { intros ??????? Hs.
    destruct (save_skill_checks py SKILLS_DIR _ _ _ _ _ _ _ _ _ _ _ Hs)
      as (_ & Hroom & _).
    apply save_skill_ok in Hs as (tree & _ & _ & _ & ->).
    unfold PyStr.len_list in *. rewrite length_list_skills in *.
    rewrite listed_insert by apply skill_files_has_impl.
    destruct Hroom as [Hlt|Hin].
    - pose proof (size_union_alt ({[name]} : gset string)
                    (dom (filter has_impl fs))) as Hsz.
      rewrite size_singleton in Hsz.
      pose proof (subseteq_size (dom (filter has_impl fs) ∖ {[name]} : gset string)
                    (dom (filter has_impl fs))) as Hle.
      rewrite Hsz. specialize (Hle ltac:(set_solver)). lia.
    - apply elem_of_list_skills in Hin as (d & Hd & Himpl).
      replace ({[name]} ∪ dom (filter has_impl fs))
        with (dom (filter has_impl fs) : gset string); [done|].
      assert (name ∈ (dom (filter has_impl fs) : gset string)).
      { apply elem_of_dom. exists d. by apply map_lookup_filter_Some. }
      set_solver. }
  split; [exact Hsave|]. split.
  - intros ?????? (existing & v & _ & Hs)%update_skill_saves. by eapply Hsave.
  - intros msg. unfold delete_skill, _get_skill_path.
    destruct (_validate_skill_name name) as [[]|e]; simpl; [|done].
    destruct (fs !! name); [|done]. intros [= <- _].
    unfold PyStr.len_list in *. rewrite length_list_skills in *.
    rewrite map_filter_delete, dom_delete_L.
    pose proof (subseteq_size (dom (filter has_impl fs) ∖ {[name]} : gset string)
                  (dom (filter has_impl fs))) as Hle.
    specialize (Hle ltac:(set_solver)). lia.
Qed.

End SkillStoreOperations.

Lemma save_then_get_witness :
  ∃ fs' r info,
    save_skill Host.python Host.SKILLS_DIR Host.clock_2024 ∅ "double"
      Host.code_double "doubles a number" None DEFAULT_RETURNS "double(x=21)"
      DEFAULT_VERSION = Ok (fs', r)
    ∧ get_skill Host.SKILLS_DIR fs' "double" = Ok info
    ∧ si_code info = Host.code_double.
Proof.
  destruct (save_skill Host.python Host.SKILLS_DIR Host.clock_2024 ∅ "double"
              Host.code_double "doubles a number" None DEFAULT_RETURNS "double(x=21)"
              DEFAULT_VERSION) as [[fs' r]|e] eqn:Hs;
    [|vm_compute in Hs; discriminate Hs].
  destruct (save_then_get _ _ _ _ _ _ _ _ _ _ _ _ _ Hs)
    as (info & Hget & _ & _ & Hcode & _).
  exists fs', r, info. split; [done|]. split; [done|].
  apply Hcode. reflexivity.
Defined.

Lemma save_frame_witness :
  ∃ fs' r,
    save_skill Host.python Host.SKILLS_DIR Host.clock_2025
      (Host.store_of Host.store_double) "fg" Host.code_fg "two functions"
      None DEFAULT_RETURNS "" DEFAULT_VERSION = Ok (fs', r)
    ∧ fs' !! "double" = Host.store_of Host.store_double !! "double".
Proof.
  destruct (save_skill Host.python Host.SKILLS_DIR Host.clock_2025
              (Host.store_of Host.store_double) "fg" Host.code_fg "two functions"
              None DEFAULT_RETURNS "" DEFAULT_VERSION) as [[fs' r]|e] eqn:Hs;
    [|vm_compute in Hs; discriminate Hs].
  exists fs', r. split; [done|].
  apply (proj1 (save_frame _ _ _ _ _ _ _ _ _ _ _ _ _ Hs)). discriminate.
Defined.

Lemma skill_count_bounded_witness :
  ∃ fs' r,
    save_skill Host.python Host.SKILLS_DIR Host.clock_2025
      (Host.store_of Host.store_double) "fg" Host.code_fg "two functions"
      None DEFAULT_RETURNS "" DEFAULT_VERSION = Ok (fs', r)
    ∧ PyStr.len_list (list_skills fs') ≤ MAX_SKILLS.
Proof.
  destruct (save_skill Host.python Host.SKILLS_DIR Host.clock_2025
              (Host.store_of Host.store_double) "fg" Host.code_fg "two functions"
              None DEFAULT_RETURNS "" DEFAULT_VERSION) as [[fs' r]|e] eqn:Hs;
    [|vm_compute in Hs; discriminate Hs].
  exists fs', r. split; [done|].
  refine (proj1 (skill_count_bounded Host.python Host.SKILLS_DIR Host.clock_2025
                   (Host.store_of Host.store_double) fs' "fg" _) _ _ _ _ _ _ _ Hs).
  vm_compute. discriminate.
Defined.

(** X5: saving a skill under a name the store does not have and deleting
    it again gives back the store as it was; the skill is then not found. *)
Theorem save_then_delete (py : Python) (SKILLS_DIR : string) (clock : Clock)
    (fs fs' : Store) (name code description : string) (parameters : option Params)
    (returns example version : string) (r : SaveReport) :
  fs !! name = None →
  save_skill py SKILLS_DIR clock fs name code description parameters
    returns example version = Ok (fs', r) →
  delete_skill SKILLS_DIR fs' name = Ok (fs, "Skill '" +:+ name +:+ "' deleted")
  ∧ get_skill SKILLS_DIR fs name
    = Raise (FileNotFoundError ("Skill '" +:+ name +:+ "' not found")).
Proof.
  intros Hfresh Hs.
  destruct (save_skill_checks py SKILLS_DIR _ _ _ _ _ _ _ _ _ _ _ Hs) as (Hname & _).
  apply save_skill_ok in Hs as (tree & _ & _ & _ & ->).
  unfold delete_skill, get_skill, _get_skill_path. rewrite Hname. simpl.
  rewrite lookup_insert_eq, Hfresh. split; [|done].
  by rewrite delete_insert_id.
Qed.

Lemma save_then_delete_witness :
  ∃ fs' r,
    save_skill Host.python Host.SKILLS_DIR Host.clock_2025
      (Host.store_of Host.store_double) "fg" Host.code_fg "two functions"
      None DEFAULT_RETURNS "" DEFAULT_VERSION = Ok (fs', r)
    ∧ delete_skill Host.SKILLS_DIR fs' "fg"
      = Ok (Host.store_of Host.store_double, "Skill 'fg' deleted").
Proof.
  destruct (save_skill Host.python Host.SKILLS_DIR Host.clock_2025
              (Host.store_of Host.store_double) "fg" Host.code_fg "two functions"
              None DEFAULT_RETURNS "" DEFAULT_VERSION) as [[fs' r]|e] eqn:Hs;
    [|vm_compute in Hs; discriminate Hs].
  exists fs', r. split; [done|].
  refine (proj1 (save_then_delete _ _ _ _ _ _ _ _ _ _ _ _ _ _ Hs)).
  vm_compute. reflexivity.
Defined.

(** X6: for a valid name that the store does not have, [get_skill],
    [run_skill], [update_skill] and [delete_skill] all raise
    [FileNotFoundError] with the message "Skill '<name>' not found";
    [run_skill] executes and calls nothing. *)
Theorem absent_skill_not_found (py : Python) (SKILLS_DIR : string) (clock : Clock)
    (fs : Store) (name : string) :
  _validate_skill_name name = Ok () →
  fs !! name = None →
  let not_found := FileNotFoundError ("Skill '" +:+ name +:+ "' not found") in
  get_skill SKILLS_DIR fs name = Raise not_found
  ∧ (∀ function kwargs,
       run_skill py SKILLS_DIR fs name function kwargs = ([], Raise not_found))
  ∧ (∀ code description parameters returns example,
       update_skill py SKILLS_DIR clock fs name code description parameters
         returns example = Raise not_found)
  ∧ delete_skill SKILLS_DIR fs name = Raise not_found.
Proof.
  intros Hname Habsent not_found.
  assert (Hget : get_skill SKILLS_DIR fs name = Raise not_found).
  { unfold get_skill, _get_skill_path. rewrite Hname. simpl. by rewrite Habsent. }
  split; [done|]. split; [|split].
  - intros. unfold run_skill. by rewrite Hget.
  - intros. unfold update_skill. by rewrite Hget.
  - unfold delete_skill, _get_skill_path. rewrite Hname. simpl. by rewrite Habsent.
Qed.

Lemma absent_skill_not_found_witness :
  get_skill Host.SKILLS_DIR (Host.store_of Host.store_double) "fg"
  = Raise (FileNotFoundError "Skill 'fg' not found").
Proof.
  refine (proj1 (absent_skill_not_found Host.python Host.SKILLS_DIR Host.clock_2025
                   (Host.store_of Host.store_double) "fg" _ _)).
  - reflexivity.
  - vm_compute. reflexivity.
Defined.

(** X7: a name that [_validate_skill_name] rejects is rejected by every
    operation with the same exception, before the store or the code is
    looked at. *)
Theorem invalid_name_rejected (py : Python) (SKILLS_DIR : string) (clock : Clock)
    (fs : Store) (name : string) (e : PyExc) :
  _validate_skill_name name = Raise e →
  (∀ code description parameters returns example version,
     save_skill py SKILLS_DIR clock fs name code description parameters
       returns example version = Raise e)
  ∧ get_skill SKILLS_DIR fs name = Raise e
  ∧ (∀ function kwargs,
       run_skill py SKILLS_DIR fs name function kwargs = ([], Raise e))
  ∧ (∀ code description parameters returns example,
       update_skill py SKILLS_DIR clock fs name code description parameters
         returns example = Raise e)
  ∧ delete_skill SKILLS_DIR fs name = Raise e.
Proof.
  intros Hname.
  assert (Hget : get_skill SKILLS_DIR fs name = Raise e).
  { unfold get_skill, _get_skill_path. by rewrite Hname. }
  split; [|split; [done|split; [|split]]].
  - intros. unfold save_skill. by rewrite Hname.
  - intros. unfold run_skill. by rewrite Hget.
  - intros. unfold update_skill. by rewrite Hget.
  - unfold delete_skill, _get_skill_path. by rewrite Hname.
Qed.

Lemma invalid_name_rejected_witness :
  get_skill Host.SKILLS_DIR (Host.store_of Host.store_double) "../double"
  = Raise (ValueError ("Invalid skill name '../double'. "
                       +:+ "Use only letters, numbers, underscores, and hyphens.")).
Proof.
  refine (proj1 (proj2 (invalid_name_rejected Host.python Host.SKILLS_DIR
                          Host.clock_2025 (Host.store_of Host.store_double)
                          "../double" _ _))).
  reflexivity.
Defined.

(** Removing a character keeps the others. *)
Lemma forallb_remove_char (p : ascii → bool) (c : ascii) (s : string) :
  PyStr.forallb_str p (PyStr.remove_char c s) = true →
  PyStr.forallb_str (λ a, p a || Ascii.eqb a c) s = true.
Proof.
  induction s as [|a s IH]; simpl; [done|].
  destruct (Ascii.eqb a c); simpl.
  - intros H. rewrite orb_true_r. simpl. auto.
  - intros [Ha Hs]%andb_true_iff. rewrite Ha. simpl. auto.
Qed.

Lemma forallb_str_impl (p q : ascii → bool) (s : string) :
  (∀ a, p a = true → q a = true) →
  PyStr.forallb_str p s = true → PyStr.forallb_str q s = true.
Proof.
  intros Hpq. induction s as [|a s IH]; simpl; [done|].
  intros [Ha Hs]%andb_true_iff. rewrite (Hpq a Ha). simpl. auto.
Qed.

Lemma isalnum_forallb (s : string) :
  PyStr.isalnum s = true → PyStr.forallb_str PyStr.isalnum_char s = true.
Proof. by destruct s. Qed.

(** X8: a name [_validate_skill_name] accepts has between 1 and 50
    characters, each of them alphanumeric in the sense of [str.isalnum]
    (which holds of accented letters too), an underscore or a hyphen; so
    it holds no dot and no path separator; and its lower-case form is not
    reserved. *)
Theorem valid_skill_name_charset (name : string) :
  _validate_skill_name name = Ok () →
  1 ≤ PyStr.len name ≤ 50
  ∧ PyStr.forallb_str
      (λ a, PyStr.isalnum_char a || Ascii.eqb a "_" || Ascii.eqb a "-") name = true
  ∧ PyStr.mem_char "/" name = false
  ∧ PyStr.mem_char "." name = false
  ∧ PyStr.lower name ∉ reserved.
Proof.
  unfold _validate_skill_name.
  destruct (String.eqb_spec name "") as [|Hne]; [done|].
  destruct (PyStr.isalnum _) eqn:Halnum; simpl; [|done].
  destruct (Z.gtb_spec (PyStr.len name) 50) as [|Hlen]; [done|].
  case_bool_decide as Hres; [done|]. intros _.
  assert (Hchars : PyStr.forallb_str
            (λ a, PyStr.isalnum_char a || Ascii.eqb a "_" || Ascii.eqb a "-") name = true).
  { apply isalnum_forallb, forallb_remove_char, forallb_remove_char in Halnum.
    revert Halnum. apply forallb_str_impl. intros a.
    destruct (PyStr.isalnum_char a), (Ascii.eqb a "_"), (Ascii.eqb a "-"); done. }
  split; [|split; [done|split; [|split; [|done]]]].
  - split; [|done]. unfold PyStr.len. destruct name; [done|]. simpl. lia.
  - clear -Hchars. induction name as [|a s IH]; [done|]. simpl in *.
    apply andb_true_iff in Hchars as [Ha Hs]. rewrite (IH Hs), orb_false_r.
    destruct (Ascii.eqb_spec a "/") as [->|]; [|done].
    vm_compute in Ha. discriminate Ha.
  - clear -Hchars. induction name as [|a s IH]; [done|]. simpl in *.
    apply andb_true_iff in Hchars as [Ha Hs]. rewrite (IH Hs), orb_false_r.
    destruct (Ascii.eqb_spec a ".") as [->|]; [|done].
    vm_compute in Ha. discriminate Ha.
Qed.

Lemma valid_skill_name_charset_witness :
  PyStr.mem_char "/" "count-errors_2" = false
  ∧ PyStr.mem_char "." ("caf" +:+ String "233" "") = false.
Proof.
  split.
  - refine (proj1 (proj2 (proj2 (valid_skill_name_charset "count-errors_2" _)))).
    reflexivity.
  - refine (proj1 (proj2 (proj2 (proj2
              (valid_skill_name_charset ("caf" +:+ String "233" "") _))))).
    reflexivity.
Defined.

(** ** Versions *)

(** The digits of a decimal numeral are read to its value. *)
Lemma scan_digits_uint_acc (d : Decimal.uint) (acc : positive) (k : Z) :
  scan_digits (NilEmpty.string_of_uint d) (Z.pos acc) k false
  = Some (Z.pos (Pos.of_uint_acc d acc),
          k + Z.of_nat (String.length (NilEmpty.string_of_uint d)), "").
Proof.
  revert acc k. induction d; intros acc k; cbn [NilEmpty.string_of_uint scan_digits];
    [by rewrite Z.add_0_r|..]; simpl;
    match goal with
    | |- scan_digits _ ?a _ _ = Some (Z.pos (Pos.of_uint_acc _ ?x), _, _) =>
        replace a with (Z.pos x) by lia
    end;
    rewrite IHd; do 3 f_equal; lia.
Qed.

Lemma scan_digits_uint (d : Decimal.uint) (k : Z) :
  scan_digits (NilEmpty.string_of_uint d) 0 k false
  = Some (Z.of_N (Pos.of_uint d),
          k + Z.of_nat (String.length (NilEmpty.string_of_uint d)), "").
Proof.
  revert k. induction d; intros k; cbn [NilEmpty.string_of_uint scan_digits];
    [by rewrite Z.add_0_r|..]; simpl.
  - rewrite IHd. do 3 f_equal; lia.
  - rewrite (scan_digits_uint_acc d 1). do 3 f_equal; lia.
  - rewrite (scan_digits_uint_acc d 2). do 3 f_equal; lia.
  - rewrite (scan_digits_uint_acc d 3). do 3 f_equal; lia.
  - rewrite (scan_digits_uint_acc d 4). do 3 f_equal; lia.
  - rewrite (scan_digits_uint_acc d 5). do 3 f_equal; lia.
  - rewrite (scan_digits_uint_acc d 6). do 3 f_equal; lia.
  - rewrite (scan_digits_uint_acc d 7). do 3 f_equal; lia.
  - rewrite (scan_digits_uint_acc d 8). do 3 f_equal; lia.
  - rewrite (scan_digits_uint_acc d 9). do 3 f_equal; lia.
Qed.



Ltac numeral_head :=
  repeat match goal with
  | |- context [PyStr.lstrip_with isspace_int (String ?c ?r)] =>
      change (PyStr.lstrip_with isspace_int (String c r)) with (String c r)
  | |- context [split_sign (String "-" ?r)] =>
      change (split_sign (String "-" r)) with (true, r)
  | |- context [split_sign (String ?c ?r)] =>
      change (split_sign (String c r)) with (false, String c r)
  | |- context [starts_with "_" (String ?c ?r)] =>
      change (starts_with "_" (String c r)) with false
  end.

(** [int] reads a decimal numeral, with or without a minus sign, as its
    value, unless it has too many digits. *)
Lemma py_int_uint (d : Decimal.uint) :
  d ≠ Decimal.Nil →
  ∀ m, (py_int (NilEmpty.string_of_uint d) = Ok m → m = Z.of_N (Pos.of_uint d))
       ∧ (py_int (String "-" (NilEmpty.string_of_uint d)) = Ok m
          → m = - Z.of_N (Pos.of_uint d)).
Proof.
  intros Hd m. unfold py_int.
  pose proof (scan_digits_uint d 0) as Hscan.
  split; (destruct d; [done|..]); cbn [NilEmpty.string_of_uint] in *;
    numeral_head; cbv iota beta; rewrite Hscan;
    (destruct (_ >? _); [done|]); (destruct (_ =? _); [done|]);
    change (PyStr.lstrip_with isspace_int "") with "";
    cbn [String.eqb]; by intros [= <-].
Qed.

(** What [int] reads of the numeral [str] writes of [n] is [n]. *)
Lemma py_int_str_of_int (n m : Z) : py_int (PyStr.str_of_int n) = Ok m → m = n.
Proof.
  destruct n as [|p|p]; unfold PyStr.str_of_int; simpl.
  - vm_compute. by intros [= <-].
  - pose proof (Unsigned.to_uint_nonnil p) as Hnil.
    pose proof (DecimalPos.Unsigned.of_to p) as Hof.
    destruct (py_int_uint _ Hnil m) as [Hpos _]. rewrite Hof in Hpos.
    destruct (Pos.to_uint p); [done|..]; exact Hpos.
  - pose proof (Unsigned.to_uint_nonnil p) as Hnil.
    pose proof (DecimalPos.Unsigned.of_to p) as Hof.
    destruct (py_int_uint _ Hnil m) as [_ Hneg]. rewrite Hof in Hneg.
    destruct (Pos.to_uint p); [done|..]; exact Hneg.
Qed.

(** [split] undoes [join] when no component holds the separator. *)
Lemma split_no_sep (c : ascii) (s : string) :
  PyStr.mem_char c s = false → PyStr.split c s = [s].
Proof.
  induction s as [|a s IH]; simpl; [done|].
  intros [Ha Hs]%orb_false_iff. rewrite Ha, (IH Hs). done.
Qed.

Lemma split_app_sep (c : ascii) (s rest : string) :
  PyStr.mem_char c s = false →
  PyStr.split c (s +:+ String c rest) = s :: PyStr.split c rest.
Proof.
  induction s as [|a s IH]; simpl.
  - intros _. by rewrite Ascii.eqb_refl.
  - intros [Ha Hs]%orb_false_iff. by rewrite Ha, (IH Hs).
Qed.

Lemma split_join (c : ascii) (l : list string) :
  l ≠ [] →
  Forall (λ s, PyStr.mem_char c s = false) l →
  PyStr.split c (PyStr.join (String c "") l) = l.
Proof.
  intros Hne Hall. induction Hall as [|x l Hx Hl IH]; [done|].
  destruct l as [|y l].
  - simpl. by apply split_no_sep.
  - change (PyStr.join (String c "") (x :: y :: l))
      with (x +:+ String c (PyStr.join (String c "") (y :: l))).
    rewrite split_app_sep by done. by rewrite IH.
Qed.

Lemma uint_no_dot (d : Decimal.uint) :
  PyStr.mem_char "." (NilEmpty.string_of_uint d) = false.
Proof. induction d; simpl; auto. Qed.

Lemma str_of_int_no_dot (n : Z) : PyStr.mem_char "." (PyStr.str_of_int n) = false.
Proof.
  unfold PyStr.str_of_int.
  destruct (Z.to_int n) as [d|d]; simpl; destruct d; try done; apply (uint_no_dot (_ _)).
Qed.

(** X9: a skill saved with a version whose components hold no dot and
    whose last component is the decimal numeral of [n] has, after any
    successful update, the same version with the last component replaced
    by the numeral of [n + 1]. *)
Theorem update_increments_version (py : Python) (SKILLS_DIR : string)
    (clock0 clock : Clock) (fs0 fs fs' : Store)
    (name code description : string) (parameters : option Params)
    (returns example : string) (front : list string) (n : Z) (r0 r : SaveReport)
    (code' description' : option string) (parameters' : option Params)
    (returns' example' : option string) :
  Forall (λ s, PyStr.mem_char "." s = false) front →
  save_skill py SKILLS_DIR clock0 fs0 name code description parameters
    returns example (PyStr.join "." (front ++ [PyStr.str_of_int n])) = Ok (fs, r0) →
  update_skill py SKILLS_DIR clock fs name code' description' parameters'
    returns' example' = Ok (fs', r) →
  ∃ info, get_skill SKILLS_DIR fs' name = Ok info
          ∧ si_version info = PyStr.join "." (front ++ [PyStr.str_of_int (n + 1)]).
Proof.
  intros Hfront Hs Hup.
  destruct (save_skill_loads py SKILLS_DIR _ _ _ _ _ _ _ _ _ _ _ Hs)
    as (info0 & Hget0 & _ & _ & _ & _ & _ & Hv0 & _).
  assert (Hsplit : PyStr.split "." (si_version info0)
                   = (front ++ [PyStr.str_of_int n])%list).
  { rewrite Hv0. apply split_join; [by destruct front|].
    apply Forall_app. split; [done|]. constructor; [|done].
    apply str_of_int_no_dot. }
  assert (Hint : py_int (PyStr.str_of_int n) = Ok n).
  { revert Hup. unfold update_skill. rewrite Hget0. cbn [mbind result_bind].
    rewrite Hsplit.
    destruct (bump_last _) as [parts|e] eqn:Hb; [|done]. intros _.
    apply bump_last_snoc in Hb as (n' & Hn' & _).
    by rewrite (py_int_str_of_int n n' Hn') in Hn'. }
  pose proof (update_skill_version py SKILLS_DIR _ _ _ _ _ _ _ _ _ _ _ _ _ _
                Hget0 Hsplit Hint Hup) as Hver.
  apply update_skill_saves in Hup as (existing & v & _ & Hs').
  destruct (save_skill_loads py SKILLS_DIR _ _ _ _ _ _ _ _ _ _ _ Hs')
    as (info & Hget & _ & _ & _ & _ & _ & Hv & _).
  exists info. split; [done|].
  destruct (save_skill_checks py SKILLS_DIR _ _ _ _ _ _ _ _ _ _ _ Hs') as (Hname & _).
  apply save_skill_ok in Hs' as (tree & _ & _ & _ & ->).
  rewrite lookup_insert_eq in Hver. simpl in Hver. congruence.
Qed.

Lemma update_increments_version_witness :
  ∃ fs' r info,
    update_skill Host.python Host.SKILLS_DIR Host.clock_2025
      (Host.store_of Host.store_double) "double" None None None None None
    = Ok (fs', r)
    ∧ get_skill Host.SKILLS_DIR fs' "double" = Ok info
    ∧ si_version info = "1.0.1".
Proof.
  destruct (update_skill Host.python Host.SKILLS_DIR Host.clock_2025
              (Host.store_of Host.store_double) "double" None None None None None)
    as [[fs' r]|e] eqn:Hup; [|vm_compute in Hup; discriminate Hup].
  destruct (save_skill Host.python Host.SKILLS_DIR Host.clock_2024 ∅ "double"
              Host.code_double "doubles a number" None DEFAULT_RETURNS "double(x=21)"
              (PyStr.join "." (["1"; "0"] ++ [PyStr.str_of_int 0])))
    as [[fs r0]|e] eqn:Hs; [|vm_compute in Hs; discriminate Hs].
  assert (Hfs : fs = Host.store_of Host.store_double).
  { unfold Host.store_double.
    change DEFAULT_VERSION with (PyStr.join "." (["1"; "0"] ++ [PyStr.str_of_int 0])).
    by rewrite Hs. }
  rewrite <- Hfs in Hup.
  destruct (update_increments_version _ _ _ _ _ _ _ _ _ _ _ _ _ ["1"; "0"] 0 _ _
              _ _ _ _ _ ltac:(by repeat constructor) Hs Hup) as (info & Hget & Hv).
  by exists fs', r, info.
Defined.

(** X10: an update that supplies no code succeeds on a skill that
    [save_skill] wrote, provided the trailing component of its version can
    be incremented ([int] reads it and [str] writes its successor) and the
    code parses alike once a text-mode read has normalised its line ends
    (as it does when the code holds no carriage return).  The code stays,
    up to that normalisation, and so do the function names; the
    description, the parameters and the return text stay where they are
    not supplied. *)
Theorem update_keeps_unsupplied (py : Python) (SKILLS_DIR : string)
    (clock0 clock : Clock) (fs0 fs : Store)
    (name code description : string) (parameters : option Params)
    (returns example version : string) (r0 : SaveReport) (parts : list string)
    (description' : option string) (parameters' : option Params)
    (returns' example' : option string) :
  save_skill py SKILLS_DIR clock0 fs0 name code description parameters
    returns example version = Ok (fs, r0) →
  ast_parse py (PyStr.universal_newlines code) = ast_parse py code →
  bump_last (PyStr.split "." version) = Ok parts →
  ∃ r,
    update_skill py SKILLS_DIR clock fs name None description' parameters'
      returns' example'
    = Ok (<[name := skill_files clock name (PyStr.universal_newlines code)
                      (default description description')
                      (Some (default (default [] parameters) parameters'))
                      (default returns returns')
                      (default "" example')
                      (PyStr.join "." parts) (sr_functions r0)]> fs, r)
    ∧ sr_functions r = sr_functions r0.
Proof.
  intros Hs Hnorm Hbump.
  destruct (save_skill_loads py SKILLS_DIR _ _ _ _ _ _ _ _ _ _ _ Hs)
    as (info & Hget & _ & Hcode & Hdesc & Hparams & Hret & Hver & _).
  destruct (save_skill_checks py SKILLS_DIR _ _ _ _ _ _ _ _ _ _ _ Hs)
    as (Hname & _ & Hblank & Hsize & _).
  pose proof (save_skill_listed py SKILLS_DIR _ _ _ _ _ _ _ _ _ _ _ Hs) as Hlisted.
  apply save_skill_ok in Hs as (tree & Hparse & Hfns & Hr0 & Hfs).
  unfold update_skill. rewrite Hget. cbn [mbind result_bind].
  rewrite Hver, Hbump, Hcode, Hdesc, Hparams, Hret. cbn [mbind result_bind default].
  rewrite (save_skill_when_valid py SKILLS_DIR clock fs name
             (PyStr.universal_newlines code) _ _ _ _ _ tree);
    try done.
  - rewrite Hr0. by eexists.
  - by right.
  - by apply universal_newlines_not_blank.
  - pose proof (universal_newlines_len code). lia.
  - by rewrite Hnorm.
Qed.

Lemma update_keeps_unsupplied_witness :
  ∃ fs r0 r,
    save_skill Host.python Host.SKILLS_DIR Host.clock_2024 ∅ "double"
      Host.code_double "doubles a number" None DEFAULT_RETURNS "double(x=21)"
      DEFAULT_VERSION = Ok (fs, r0)
    ∧ update_skill Host.python Host.SKILLS_DIR Host.clock_2025 fs "double"
        None None None None None
      = Ok (<["double" := skill_files Host.clock_2025 "double" Host.code_double
                            "doubles a number" (Some []) DEFAULT_RETURNS ""
                            "1.0.1" ["double"]]> fs, r).
Proof.
  destruct (save_skill Host.python Host.SKILLS_DIR Host.clock_2024 ∅ "double"
              Host.code_double "doubles a number" None DEFAULT_RETURNS "double(x=21)"
              DEFAULT_VERSION) as [[fs r0]|e] eqn:Hs;
    [|vm_compute in Hs; discriminate Hs].
  destruct (update_keeps_unsupplied _ _ _ Host.clock_2025 _ _ _ _ _ _ _ _ _ _
              ["1"; "0"; "1"] None None None None Hs eq_refl eq_refl)
    as (r & Hup & _).
  exists fs, r0, r. split; [reflexivity|].
  rewrite Hup.
  apply save_skill_ok in Hs as (tree & Hparse & _ & Hr0 & _).
  vm_compute in Hparse. injection Hparse as <-. rewrite Hr0. reflexivity.
Defined.

(** X11: a skill saved with a version whose trailing component does not
    read as an integer cannot be updated: every update raises the
    [ValueError] of [int]. *)
Theorem update_rejects_version (py : Python) (SKILLS_DIR : string)
    (clock0 clock : Clock) (fs0 fs : Store)
    (name code description : string) (parameters : option Params)
    (returns example version : string) (r0 : SaveReport)
    (front : list string) (last : string) (e : PyExc) :
  save_skill py SKILLS_DIR clock0 fs0 name code description parameters
    returns example version = Ok (fs, r0) →
  PyStr.split "." version = (front ++ [last])%list →
  py_int last = Raise e →
  ∀ code' description' parameters' returns' example',
    update_skill py SKILLS_DIR clock fs name code' description' parameters'
      returns' example' = Raise e.
Proof.
  intros Hs Hsplit Hint ?????.
  destruct (save_skill_loads py SKILLS_DIR _ _ _ _ _ _ _ _ _ _ _ Hs)
    as (info & Hget & _ & _ & _ & _ & _ & Hver & _).
  unfold update_skill. rewrite Hget. cbn [mbind result_bind].
  rewrite Hver, Hsplit.
  unfold bump_last. rewrite reverse_snoc, Hint. done.
Qed.

Lemma update_rejects_version_witness :
  ∃ fs r0,
    save_skill Host.python Host.SKILLS_DIR Host.clock_2024 ∅ "double"
      Host.code_double "doubles a number" None DEFAULT_RETURNS "" "1.0.0-beta"
    = Ok (fs, r0)
    ∧ update_skill Host.python Host.SKILLS_DIR Host.clock_2025 fs "double"
        None (Some "doubles its argument") None None None
      = Raise (ValueError "invalid literal for int() with base 10: '0-beta'").
Proof.
  destruct (save_skill Host.python Host.SKILLS_DIR Host.clock_2024 ∅ "double"
              Host.code_double "doubles a number" None DEFAULT_RETURNS "" "1.0.0-beta")
    as [[fs r0]|e] eqn:Hs; [|vm_compute in Hs; discriminate Hs].
  exists fs, r0. split; [done|].
  by apply (update_rejects_version _ _ _ Host.clock_2025 _ _ _ _ _ _ _ _ _ _
              ["1"; "0"] "0-beta" _ Hs).
Defined.

(** X12: for a skill directory without [metadata.json], [get_skill] gives
    the code as read from [implementation.py] and falls back to an empty
    description, no functions, no parameters and version "1.0.0", and
    [run_skill] raises a [ValueError] without executing the code. *)
Theorem skill_without_metadata (py : Python) (SKILLS_DIR : string) (fs : Store)
    (name : string) (d : SkillDir) :
  _validate_skill_name name = Ok () →
  fs !! name = Some d →
  metadata_json d = None →
  (∃ info, get_skill SKILLS_DIR fs name = Ok info
           ∧ si_code info = read_text_or_empty (implementation_py d)
           ∧ si_description info = ""
           ∧ si_functions info = []
           ∧ si_parameters info = []
           ∧ si_version info = "1.0.0")
  ∧ ∀ function kwargs,
      run_skill py SKILLS_DIR fs name function kwargs
      = ([], Raise (ValueError ("Skill '" +:+ name +:+ "' has no functions defined"))).
Proof.
  intros Hname Hd Hmeta.
  assert (Hget : get_skill SKILLS_DIR fs name
                 = Ok (mkSkillInfo name (read_text_or_empty (implementation_py d))
                         (mkMetadata name "" None None [] None None None)
                         (read_text_or_empty (SKILL_md d))
                         (SKILLS_DIR +:+ "/" +:+ name)
                         "" [] [] "1.0.0")).
  { unfold get_skill, _get_skill_path. rewrite Hname. simpl. by rewrite Hd, Hmeta. }
  split.
  - eexists. split; [exact Hget|]. done.
  - intros. unfold run_skill. by rewrite Hget.
Qed.

Lemma skill_without_metadata_witness :
  run_skill Host.python Host.SKILLS_DIR
    (<["double" := mkSkillDir (Some Host.code_double) None None]> ∅) "double" None []
  = ([], Raise (ValueError "Skill 'double' has no functions defined")).
Proof.
  refine (proj2 (skill_without_metadata Host.python Host.SKILLS_DIR
                   (<["double" := mkSkillDir (Some Host.code_double) None None]> ∅)
                   "double" _ _ _ _) None []).
  - reflexivity.
  - apply lookup_insert_eq.
  - reflexivity.
Defined.


(** * Further properties of execute_code *)

Lemma restricted_blocked_disjoint (name : string) :
  name ∈ RESTRICTED_BUILTINS → name ∈ BLOCKED_BUILTINS → False.
Proof.
  intros Hr Hb.
  assert (Hd : RESTRICTED_BUILTINS ∩ BLOCKED_BUILTINS = ∅) by (vm_compute; reflexivity).
  assert (Hin : name ∈ RESTRICTED_BUILTINS ∩ BLOCKED_BUILTINS).
  { apply elem_of_intersection. split; assumption. }
  rewrite Hd in Hin. exact (not_elem_of_empty name Hin).
Qed.

(** X13: the builtins of the sandbox namespace bind [__import__] to the
    import gate and, besides it, only names of [RESTRICTED_BUILTINS], each
    to the host's object of that name; no other name of [BLOCKED_BUILTINS]
    is bound, whatever the host's [builtins] module holds. *)
Theorem sandbox_builtins_restricted (py : Python) :
  let b := g_builtins (create_execution_globals py) in
  b !! "__import__" = Some (OSafeImport ALLOWED_IMPORTS)
  ∧ (∀ name obj, name ≠ "__import__" → b !! name = Some obj →
       name ∈ RESTRICTED_BUILTINS ∧ builtins_module py !! name = Some obj)
  ∧ (∀ name, name ∈ BLOCKED_BUILTINS → name ≠ "__import__" → b !! name = None).
Proof.
  intros b.
  assert (Hsound : ∀ name obj, name ≠ "__import__" → b !! name = Some obj →
            name ∈ RESTRICTED_BUILTINS ∧ builtins_module py !! name = Some obj).
  { intros name obj Hne. subst b. unfold create_execution_globals. simpl.
    rewrite lookup_insert_ne by done.
    intros Hin%elem_of_list_to_map_2.
    apply list_elem_of_omap in Hin as (n & Hn & Hf).
    apply elem_of_elements in Hn.
    destruct (builtins_module py !! n) as [v|] eqn:Hv; simpl in Hf; [|discriminate Hf].
    injection Hf as <- <-. split; assumption. }
  split; [|split; [exact Hsound|]].
  - subst b. unfold create_execution_globals. simpl. apply lookup_insert_eq.
  - intros name Hblocked Hne.
    destruct (b !! name) as [obj|] eqn:Hb; [|done].
    destruct (Hsound name obj Hne Hb) as [Hr _].
    destruct (restricted_blocked_disjoint name Hr Hblocked).
Qed.

Lemma sandbox_builtins_restricted_witness :
  g_builtins (create_execution_globals Host.python) !! "open" = None.
Proof.
  refine (proj2 (proj2 (sandbox_builtins_restricted Host.python)) "open" _ _).
  - vm_compute. reflexivity.
  - discriminate.
Defined.

(** X14: for an executed snippet whose envelope is returned, [success] is
    true exactly when the run finished without an exception, and then the
    error text is empty. *)
Theorem success_iff_finished (py : Python) (s : string) (timeout max_output : Z)
    (env : Envelope) :
  PyStr.strip s ≠ "" →
  (execute_code py (PStr s) timeout max_output).2 = Ok env →
  (success env = true ↔
     ending (exec_governed py s (create_execution_globals py) timeout) = Finished)
  ∧ (success env = true → error env = "").
Proof.
  intros Hs. rewrite execute_code_runs by done. cbn zeta. cbn [snd].
  destruct (finalize_output _ _) as [final|e]; [|done]. cbn [mbind result_bind].
  destruct (ending _) as [e| |e|]; cbn.
  - destruct (except_clauses e); cbn; [|done]. intros [= <-]. cbn. naive_solver.
  - intros [= <-]. cbn. naive_solver.
  - destruct (except_clauses e); cbn; [|done]. intros [= <-]. cbn. naive_solver.
  - intros [= <-]. cbn. naive_solver.
Qed.

Lemma success_iff_finished_witness :
  ∃ env, (execute_code Host.python (PStr "print(1+1)") 5 100).2 = Ok env
         ∧ success env = true ∧ error env = "".
Proof.
  eexists. split; [reflexivity|].
  pose proof (success_iff_finished Host.python "print(1+1)" 5 100 _
                ltac:(discriminate) eq_refl) as [Hiff Herr].
  split; [reflexivity|]. apply Herr. reflexivity.
Defined.



(** X16: a falsy [code] value ([None], [False], [0], the empty [str],
    [bytes] or list) and a blank [bytes] value give "No code provided"; a
    [bytes] value that is not blank gives "Code must be a string"; in both
    cases nothing is executed. *)
Theorem invalid_code_values (py : Python) (timeout max_output : Z) :
  (∀ v, truthy v = false →
     execute_code py v timeout max_output
     = ([], Ok (validation_failure "No code provided")))
  ∧ (∀ b, PyStr.strip_bytes b = "" →
       execute_code py (PBytes b) timeout max_output
       = ([], Ok (validation_failure "No code provided")))
  ∧ (∀ b, PyStr.strip_bytes b ≠ "" →
       execute_code py (PBytes b) timeout max_output
       = ([], Ok (validation_failure "Code must be a string"))).
Proof.
  split; [|split].
  - intros v Hv. unfold execute_code. by rewrite Hv.
  - intros b Hb. unfold execute_code. simpl.
    destruct (String.eqb_spec b "") as [->|_]; [done|]. simpl. by rewrite Hb.
  - intros b Hb. unfold execute_code. simpl.
    destruct (String.eqb_spec b "") as [->|_]; [done|]. simpl.
    by destruct (String.eqb_spec (PyStr.strip_bytes b) "").
Qed.

Lemma invalid_code_values_witness :
  execute_code Host.python (PBytes "print(1+1)") 5 100
  = ([], Ok (validation_failure "Code must be a string")).
Proof.
  apply (proj2 (proj2 (invalid_code_values Host.python 5 100))). discriminate.
Defined.

(** X17: with a negative cap every executed request that returns an
    envelope is reported as truncated, even when nothing was printed: the
    output is the captured text without its last [-max_output]
    characters, followed by the marker. *)
Theorem negative_cap_truncates (py : Python) (s : string) (timeout max_output : Z)
    (env : Envelope) :
  let captured := emitted (exec_governed py s (create_execution_globals py) timeout) in
  max_output < 0 →
  PyStr.strip s ≠ "" →
  (execute_code py (PStr s) timeout max_output).2 = Ok env →
  truncated env = true
  ∧ output env = substring 0 (Z.to_nat (PyStr.len captured + max_output)) captured
                 +:+ truncation_marker max_output.
Proof.
  intros captured Hneg Hs Henv.
  pose proof (envelope_output py s timeout max_output env Hs Henv) as Hout.
  cbn zeta in Hout. fold captured in Hout. unfold PyStr.slice_to in Hout.
  assert (0 ≤ PyStr.len captured) by (unfold PyStr.len; lia).
  rewrite (proj2 (Z.gtb_lt _ _)) in Hout by lia.
  destruct (Z.leb_spec 0 max_output); [lia|].
  by injection Hout as -> ->.
Qed.

Lemma negative_cap_truncates_witness :
  ∃ env, (execute_code Host.python (PStr "print('abcdef', end='')") 5 (-2)).2 = Ok env
         ∧ truncated env = true
         ∧ output env = "abcd" +:+ truncation_marker (-2).
Proof.
  eexists. split; [reflexivity|].
  exact (negative_cap_truncates Host.python "print('abcdef', end='')" 5 (-2) _
           ltac:(lia) ltac:(discriminate) eq_refl).
Defined.

(** A joined text holds each of the joined strings. *)
Lemma contains_join (sep : string) (l : list string) (m : string) :
  m ∈ l → PyStr.Contains (PyStr.join sep l) m.
Proof.
  induction l as [|x l IH]; [by intros ?%elem_of_nil|].
  intros [->|Hin]%elem_of_cons.
  - destruct l as [|y l]; [apply contains_refl|].
    change (PyStr.join sep (x :: y :: l)) with (x +:+ sep +:+ PyStr.join sep (y :: l)).
    apply contains_app_r, contains_refl.
  - destruct l as [|y l]; [by apply elem_of_nil in Hin|].
    change (PyStr.join sep (x :: y :: l)) with (x +:+ sep +:+ PyStr.join sep (y :: l)).
    do 2 apply contains_app_l. by apply IH.
Qed.

Lemma elem_of_sorted (S : gset string) (m : string) : m ∈ PyStr.sorted S ↔ m ∈ S.
Proof. unfold PyStr.sorted. by rewrite merge_sort_Permutation, elem_of_elements. Qed.

(** X18: for any allow-list, the [ImportError] of the gate names the
    requested module and every module of the allow-list. *)
Theorem rejected_import_names_allow_list (real_import : string → Result Obj)
    (allowed : gset string) (name : string) :
  hd "" (PyStr.split "." name) ∉ allowed →
  ∃ msg, create_safe_import real_import allowed name = Raise (ImportError msg)
         ∧ PyStr.Contains msg name
         ∧ ∀ m, m ∈ allowed → PyStr.Contains msg m.
Proof.
  intros Hnot. unfold create_safe_import.
  rewrite bool_decide_eq_true_2 by done. eexists. split; [reflexivity|]. split.
  - apply contains_app_l, contains_app_r, contains_refl.
  - intros m Hm. do 4 apply contains_app_l.
    by apply contains_join, elem_of_sorted.
Qed.

Lemma rejected_import_names_allow_list_witness :
  ∃ msg, create_safe_import Host.real_import ALLOWED_IMPORTS "os.path"
         = Raise (ImportError msg)
         ∧ PyStr.Contains msg "os.path"
         ∧ ∀ m, m ∈ ALLOWED_IMPORTS → PyStr.Contains msg m.
Proof.
  apply rejected_import_names_allow_list. vm_compute. intros H. discriminate H.
Defined.

(** X19: the gate decides on the part of the name before the first dot:
    for a module name [M] without a dot, every [M.rest] is handed to the
    real import when [M] is allowed and rejected when it is not. *)
Theorem submodule_import_follows_top_level (real_import : string → Result Obj)
    (allowed : gset string) (M rest : string) :
  PyStr.mem_char "." M = false →
  (M ∈ allowed →
     create_safe_import real_import allowed (M +:+ "." +:+ rest)
     = real_import (M +:+ "." +:+ rest))
  ∧ (M ∉ allowed →
       ∃ msg, create_safe_import real_import allowed (M +:+ "." +:+ rest)
              = Raise (ImportError msg)).
Proof.
  intros HM. unfold create_safe_import.
  change (M +:+ "." +:+ rest) with (M +:+ String "." rest).
  rewrite split_app_sep by done. simpl. split; intros Hin.
  - rewrite bool_decide_eq_false_2; [done|]. tauto.
  - rewrite bool_decide_eq_true_2 by done. by eexists.
Qed.

Lemma submodule_import_follows_top_level_witness :
  create_safe_import Host.real_import ALLOWED_IMPORTS ("json" +:+ "." +:+ "decoder")
  = Ok (OModule "json.decoder").
Proof.
  refine (proj1 (submodule_import_follows_top_level Host.real_import ALLOWED_IMPORTS
                   "json" "decoder" _) _).
  - reflexivity.
  - apply (bool_decide_unpack _). vm_compute. exact I.
Defined.

(** X20: the modules [get_available_tools] lists, sandbox tools and
    standard modules together, are exactly the modules of the allow-list,
    each listed once, the standard modules in ascending order; a name
    whose top-level part is listed passes the gate and any other name is
    rejected. *)
Theorem available_tools_match_gate :
  let listed := (sandbox_tools get_available_tools
                 ++ standard_modules get_available_tools)%list in
  (∀ m, m ∈ listed ↔ m ∈ ALLOWED_IMPORTS)
  ∧ NoDup listed
  ∧ StronglySorted String.le (standard_modules get_available_tools)
  ∧ (∀ real_import name,
       hd "" (PyStr.split "." name) ∈ listed →
       create_safe_import real_import ALLOWED_IMPORTS name = real_import name)
  ∧ (∀ real_import name,
       hd "" (PyStr.split "." name) ∉ listed →
       ∃ msg, create_safe_import real_import ALLOWED_IMPORTS name
              = Raise (ImportError msg)).
Proof.
  intros listed.
  assert (Htools : ∀ m, m ∈ ["log_store"; "privacy"; "workspace"] → m ∈ ALLOWED_IMPORTS).
  { intros m Hm. repeat (apply elem_of_cons in Hm as [->|Hm];
      [apply (bool_decide_unpack _); vm_compute; exact I|]).
    by apply elem_of_nil in Hm. }
  assert (Hlisted : ∀ m, m ∈ listed ↔ m ∈ ALLOWED_IMPORTS).
  { intros m. subst listed. unfold get_available_tools, PyStr.sorted_list.
    cbn [sandbox_tools standard_modules].
    rewrite elem_of_app, merge_sort_Permutation, list_elem_of_filter, elem_of_elements.
    split; [intros [Hm|[_ Hm]]; auto|].
    intros Hm. destruct (decide (m ∈ ["log_store"; "privacy"; "workspace"])); auto. }
  split; [exact Hlisted|]. split; [|split; [|split]].
  - subst listed. unfold get_available_tools, PyStr.sorted_list.
    cbn [sandbox_tools standard_modules].
    apply NoDup_app. split; [|split].
    + apply (bool_decide_unpack _). vm_compute. exact I.
    + intros m Hm. rewrite merge_sort_Permutation, list_elem_of_filter. tauto.
    + rewrite merge_sort_Permutation. apply NoDup_filter, NoDup_elements.
  - unfold get_available_tools, PyStr.sorted_list. cbn [standard_modules].
    apply (StronglySorted_merge_sort String.le); apply _.
  - intros ri name Hin%Hlisted. unfold create_safe_import.
    rewrite bool_decide_eq_false_2; [done|]. tauto.
  - intros ri name Hnot. unfold create_safe_import.
    rewrite bool_decide_eq_true_2; [by eexists|]. by rewrite <- Hlisted.
Qed.

Lemma available_tools_match_gate_witness :
  create_safe_import Host.real_import ALLOWED_IMPORTS "privacy" = Ok (OModule "privacy").
Proof.
  refine (proj1 (proj2 (proj2 (proj2 available_tools_match_gate)))
            Host.real_import "privacy" _).
  apply elem_of_app. left. apply (bool_decide_unpack _). vm_compute. exact I.
Defined.


(** * Searching skills and logs *)

(** [get_skill] raises nothing but [ValueError] and [FileNotFoundError]. *)
Lemma get_skill_raises_exception (SKILLS_DIR : string) (fs : Store) (name : string)
    (e : PyExc) :
  get_skill SKILLS_DIR fs name = Raise e → isinstance e "Exception" = true.
Proof.
  unfold get_skill, _get_skill_path, _validate_skill_name.
  destruct (String.eqb name ""); [by intros [= <-]|].
  destruct (negb _); [by intros [= <-]|].
  destruct (_ >? _); [by intros [= <-]|].
  destruct (bool_decide _); [by intros [= <-]|]. simpl.
  destruct (fs !! name); [done|]. by intros [= <-].
Qed.

Lemma search_loop_hits (SKILLS_DIR : string) (fs : Store) (q : string)
    (names : list string) :
  ∃ hits,
    Skills.search_loop SKILLS_DIR fs q names = Ok hits
    ∧ sublist (sh_name <$> hits) names
    ∧ ∀ h, h ∈ hits ↔
        ∃ name info,
          name ∈ names
          ∧ get_skill SKILLS_DIR fs name = Ok info
          ∧ PyStr.contains q (PyStr.lower name)
            || PyStr.contains q (PyStr.lower (si_description info)) = true
          ∧ h = mkSearchHit name (si_description info) (si_functions info)
                  (si_version info).
Proof.
  induction names as [|n names (hits & Hloop & Hsub & Hiff)].
  { exists []. split; [done|]. split; [done|]. intros h. split.
    - by intros ?%elem_of_nil.
    - by intros (? & ? & ?%elem_of_nil & _). }
  simpl. destruct (get_skill SKILLS_DIR fs n) as [info|e] eqn:Hget.
  - rewrite Hloop. simpl.
    destruct (_ || _) eqn:Hmatch.
    + eexists. split; [reflexivity|]. split; [by constructor|].
      intros h. rewrite elem_of_cons, Hiff. split.
      * intros [->|(name & i & Hin & ?)].
        -- exists n, info. by rewrite elem_of_cons; auto.
        -- exists name, i. by rewrite elem_of_cons; auto.
      * intros (name & i & [->|Hin]%elem_of_cons & Hg & Hm & ->).
        -- left. rewrite Hget in Hg. by injection Hg as <-.
        -- right. by exists name, i.
    + exists hits. split; [done|]. split; [by constructor|].
      intros h. rewrite Hiff. split.
      * intros (name & i & Hin & ?). exists name, i. by rewrite elem_of_cons; auto.
      * intros (name & i & [->|Hin]%elem_of_cons & Hg & Hm & ->).
        -- rewrite Hget in Hg. injection Hg as <-. congruence.
        -- by exists name, i.
  - rewrite (get_skill_raises_exception _ _ _ _ Hget).
    exists hits. split; [done|]. split; [by constructor|].
    intros h. rewrite Hiff. split.
    + intros (name & i & Hin & ?). exists name, i. by rewrite elem_of_cons; auto.
    + intros (name & i & [->|Hin]%elem_of_cons & Hg & Hm & ->).
      * congruence.
      * by exists name, i.
Qed.

(** X21: [search_skills] never raises.  Its hits are, in the order of
    [list_skills], exactly the listed skills that [get_skill] can load and
    whose name or description holds the query, both compared in lower
    case; each hit carries the description, functions and version
    [get_skill] gives.  A listed directory that [get_skill] cannot load is
    left out silently. *)
Theorem search_skills_hits (SKILLS_DIR : string) (fs : Store) (query : string) :
  ∃ hits,
    search_skills SKILLS_DIR fs query = Ok hits
    ∧ sublist (sh_name <$> hits) (list_skills fs)
    ∧ ∀ h, h ∈ hits ↔
        ∃ name info,
          name ∈ list_skills fs
          ∧ get_skill SKILLS_DIR fs name = Ok info
          ∧ PyStr.contains (PyStr.lower query) (PyStr.lower name)
            || PyStr.contains (PyStr.lower query) (PyStr.lower (si_description info))
            = true
          ∧ h = mkSearchHit name (si_description info) (si_functions info)
                  (si_version info).
Proof. apply search_loop_hits. Qed.

(** The length the loop of [search_logs] can reach. *)
Lemma search_logs_loop_length (keyword : string) (limit : Z)
    (log_level : option string) (lines results : list string) :
  results = [] ∨ PyStr.len_list results < limit →
  PyStr.len_list (LogStore.search_loop keyword limit log_level lines results)
  ≤ Z.max 1 limit.
Proof.
  revert results. induction lines as [|line rest IH]; intros results Hinv; simpl.
  - destruct Hinv as [->|Hlt]; [simpl|]; unfold PyStr.len_list in *; simpl; lia.
  - destruct (String.eqb _ ""); [by apply IH|].
    destruct (LogStore.level_skips _ _); [by apply IH|].
    destruct (PyStr.contains _ _); [|by apply IH].
    destruct (Z.geb_spec (PyStr.len_list (results ++ [PyStr.strip line])) limit)
      as [Hge|Hlt].
    + unfold PyStr.len_list in *. rewrite length_app in *. simpl in *.
      destruct Hinv as [->|Hinv]; simpl; lia.
    + apply IH. by right.
Qed.

(** What the loop of [search_logs] collects. *)
Lemma search_logs_loop_sound (keyword : string) (limit : Z)
    (log_level : option string) (lines results : list string) (x : string) :
  x ∈ LogStore.search_loop keyword limit log_level lines results →
  x ∈ results
  ∨ ∃ line, line ∈ lines
            ∧ x = PyStr.strip line
            ∧ x ≠ ""
            ∧ LogStore.level_skips log_level line = false
            ∧ PyStr.contains (PyStr.lower keyword) (PyStr.lower line) = true.
Proof.
  revert results. induction lines as [|line rest IH]; intros results; simpl; [auto|].
  assert (Hrest : x ∈ LogStore.search_loop keyword limit log_level rest results →
                  x ∈ results ∨ ∃ l, l ∈ line :: rest ∧ x = PyStr.strip l ∧ x ≠ ""
                    ∧ LogStore.level_skips log_level l = false
                    ∧ PyStr.contains (PyStr.lower keyword) (PyStr.lower l) = true).
  { intros [?|(l & Hl & ?)]%IH; [auto|]. right. exists l. by rewrite elem_of_cons; auto. }
  destruct (String.eqb_spec (PyStr.strip line) "") as [|Hne]; [done|].
  destruct (LogStore.level_skips _ _) eqn:Hlevel; [done|].
  destruct (PyStr.contains _ _) eqn:Hkw; [|done].
  assert (Hnew : x ∈ (results ++ [PyStr.strip line])%list →
                 x ∈ results ∨ ∃ l, l ∈ line :: rest ∧ x = PyStr.strip l ∧ x ≠ ""
                   ∧ LogStore.level_skips log_level l = false
                   ∧ PyStr.contains (PyStr.lower keyword) (PyStr.lower l) = true).
  { intros [?|Hx%list_elem_of_singleton]%elem_of_app; [auto|]. subst x.
    right. exists line. by rewrite elem_of_cons; auto. }
  destruct (_ >=? _); [done|].
  intros [?|(l & Hl & ?)]%IH; [auto|]. right. exists l. by rewrite elem_of_cons; auto.
Qed.

(** X22: [search_logs] never returns an empty list, and returns at most
    [limit] lines, or one line when [limit] is below one: the loop stops
    only after an append, so a first match is always returned. *)
Theorem search_logs_bounded (service_name keyword : string) (limit : Z)
    (log_level : option string) :
  LogStore.search_logs service_name keyword limit log_level ≠ []
  ∧ PyStr.len_list (LogStore.search_logs service_name keyword limit log_level)
    ≤ Z.max 1 limit.
Proof.
  unfold LogStore.search_logs.
  pose proof (search_logs_loop_length keyword limit log_level
                (PyStr.splitlines (LogStore.mock_logs service_name)) []
                ltac:(by left)) as Hlen.
  destruct (LogStore.search_loop _ _ _ _ _) as [|x xs]; [|done].
  split; [done|]. unfold PyStr.len_list. simpl. lia.
Qed.

(** X23: every line [search_logs] returns is either the single "No logs
    found" message or a line of the log text, stripped and not blank, that
    holds the keyword when both are put in lower case and, when a log
    level is given, holds the level tag in upper case. *)
Theorem search_logs_sound (service_name keyword : string) (limit : Z)
    (log_level : option string) (x : string) :
  x ∈ LogStore.search_logs service_name keyword limit log_level →
  (LogStore.search_logs service_name keyword limit log_level
   = ["No logs found for service '" +:+ service_name
      +:+ "' matching '" +:+ keyword +:+ "'"])
  ∨ ∃ line, line ∈ PyStr.splitlines (LogStore.mock_logs service_name)
            ∧ x = PyStr.strip line
            ∧ x ≠ ""
            ∧ LogStore.level_skips log_level line = false
            ∧ PyStr.contains (PyStr.lower keyword) (PyStr.lower line) = true.
Proof.
  unfold LogStore.search_logs.
  destruct (LogStore.search_loop _ _ _ _ _) as [|y ys] eqn:Hloop; [by left|].
  rewrite <- Hloop. intros [Hin|Hline]%search_logs_loop_sound; [|by right].
  by apply elem_of_nil in Hin.
Qed.

Lemma search_logs_sound_witness :
  ∃ line, line ∈ PyStr.splitlines (LogStore.mock_logs "payment-service")
          ∧ "[2024-01-15 10:28:42] [WARN] High memory usage detected: 85%"
            = PyStr.strip line
          ∧ LogStore.level_skips (Some "warn") line = false.
Proof.
  destruct (search_logs_sound "payment-service" "" 0 (Some "warn")
              "[2024-01-15 10:28:42] [WARN] High memory usage detected: 85%")
    as [Hnone|(line & Hin & Hx & _ & Hlevel & _)].
  - vm_compute. left.
  - vm_compute in Hnone. discriminate Hnone.
  - by exists line.
Defined.



(** * Limits of the skill store *)

(** X24: with a valid name and room in the store, [save_skill] rejects
    blank code, code of more than [MAX_SKILL_SIZE] characters (without
    parsing it) and code that fails to parse, each with a [ValueError]
    whose message starts with "Invalid code: ". *)
Theorem save_rejects_invalid_code (py : Python) (SKILLS_DIR : string) (clock : Clock)
    (fs : Store) (name code description : string) (parameters : option Params)
    (returns example version : string) :
  let save := save_skill py SKILLS_DIR clock fs name code description parameters
                returns example version in
  _validate_skill_name name = Ok () →
  PyStr.len_list (list_skills fs) < MAX_SKILLS ∨ name ∈ list_skills fs →
  (PyStr.strip code = "" →
     save = Raise (ValueError "Invalid code: Code cannot be empty"))
  ∧ (PyStr.strip code ≠ "" → PyStr.len code > MAX_SKILL_SIZE →
       save = Raise (ValueError
                       ("Invalid code: Code too large ("
                        +:+ PyStr.str_of_int (PyStr.len code)
                        +:+ " bytes). Maximum: 51200")))
  ∧ (∀ e, PyStr.strip code ≠ "" → PyStr.len code ≤ MAX_SKILL_SIZE →
       ast_parse py code = Raise e → isinstance e "SyntaxError" = true →
       save = Raise (ValueError
                       ("Invalid code: Syntax error at line "
                        +:+ render_lineno (exc_lineno e) +:+ ": "
                        +:+ render_msg (exc_msg e)))).
Proof.
  intros save Hname Hroom. subst save.
  unfold save_skill. rewrite Hname. simpl.
  replace (_ && _) with false; cycle 1.
  { symmetry. apply andb_false_iff. destruct Hroom as [Hlt|Hin].
    - left. rewrite Z.geb_leb. apply Z.leb_gt. lia.
    - right. apply bool_decide_eq_false_2. tauto. }
  unfold _validate_code. split; [|split].
  - intros Hblank. rewrite Hblank. simpl. by rewrite orb_true_r.
  - intros Hblank Hlarge.
    destruct (String.eqb_spec code "") as [->|_]; [done|].
    destruct (String.eqb_spec (PyStr.strip code) "") as [?|_]; [done|]. simpl.
    rewrite (proj2 (Z.gtb_lt _ _)) by lia. done.
  - intros e Hblank Hsize Hparse Hsyntax.
    destruct (String.eqb_spec code "") as [->|_]; [done|].
    destruct (String.eqb_spec (PyStr.strip code) "") as [?|_]; [done|]. simpl.
    destruct (Z.gtb_spec (PyStr.len code) MAX_SKILL_SIZE); [lia|].
    by rewrite Hparse, Hsyntax.
Qed.

Lemma save_rejects_invalid_code_witness :
  save_skill Host.python Host.SKILLS_DIR Host.clock_2024 ∅ "broken"
    "def broken(:" "does not parse" None DEFAULT_RETURNS "" DEFAULT_VERSION
  = Raise (ValueError "Invalid code: Syntax error at line 1: invalid syntax").
Proof.
  refine (proj2 (proj2 (save_rejects_invalid_code Host.python Host.SKILLS_DIR
                          Host.clock_2024 ∅ "broken" "def broken(:" "does not parse"
                          None DEFAULT_RETURNS "" DEFAULT_VERSION _ _))
            _ _ _ eq_refl eq_refl).
  - reflexivity.
  - left. vm_compute. reflexivity.
  - discriminate.
  - vm_compute. discriminate.
Defined.

(** X25: when the store lists [MAX_SKILLS] skills or more, saving under a
    valid name that is not listed raises "Maximum number of skills (100)
    reached", whatever the code is. *)
Theorem save_rejects_when_full (py : Python) (SKILLS_DIR : string) (clock : Clock)
    (fs : Store) (name code description : string) (parameters : option Params)
    (returns example version : string) :
  _validate_skill_name name = Ok () →
  MAX_SKILLS ≤ PyStr.len_list (list_skills fs) →
  name ∉ list_skills fs →
  save_skill py SKILLS_DIR clock fs name code description parameters
    returns example version
  = Raise (ValueError "Maximum number of skills (100) reached").
Proof.
  intros Hname Hfull Hnew. unfold save_skill. rewrite Hname. simpl.
  rewrite (proj2 (Z.geb_le _ _)) by lia.
  by rewrite bool_decide_eq_true_2.
Qed.

Lemma save_rejects_when_full_witness :
  save_skill Host.python Host.SKILLS_DIR Host.clock_2024 Host2.store_full "double"
    Host.code_double "doubles a number" None DEFAULT_RETURNS "" DEFAULT_VERSION
  = Raise (ValueError "Maximum number of skills (100) reached").
Proof.
  apply save_rejects_when_full.
  - reflexivity.
  - vm_compute. discriminate.
  - apply (bool_decide_unpack _). vm_compute. exact I.
Defined.

(** X26: the usage lines [save_skill] writes into [SKILL.md] start with
    [import skills], but the sandbox namespace binds no variable [skills]
    and its import gate rejects the module: under [execute_code] that
    import raises [ImportError]. *)
Theorem skill_usage_not_importable (py : Python) (real_import : string → Result Obj)
    (name description params_example parameters returns example date version : string) :
  PyStr.Contains
    (SKILL_MD_TEMPLATE name description params_example parameters returns
       example date version)
    "import skills"
  ∧ g_vars (create_execution_globals py) !! "skills" = None
  ∧ ∃ msg, import_statement real_import (create_execution_globals py) "skills"
           = Raise (ImportError msg).
Proof.
  split; [|split].
  - unfold SKILL_MD_TEMPLATE. do 13 apply contains_app_l.
    apply contains_app_r, contains_refl.
  - unfold create_execution_globals. simpl.
    destruct (tools_importable py); by vm_compute.
  - unfold import_statement, create_execution_globals. simpl.
    rewrite lookup_insert_eq. unfold create_safe_import.
    rewrite bool_decide_eq_true_2; [by eexists|].
    vm_compute. intros H. discriminate H.
Qed.

(** X27: when the function [run_skill] selects is recorded for the skill
    but not bound once the code has run (a nested function, a method),
    the code has been executed, nothing is called, and a [ValueError]
    "Function '<name>' not found after executing skill" is raised; when
    the code itself raises, that exception leaves [run_skill] and nothing
    is called. *)
Theorem run_skill_unbound_function (py : Python) (SKILLS_DIR : string) (fs : Store)
    (name h : string) (info : SkillInfo) (kwargs : Kwargs) :
  get_skill SKILLS_DIR fs name = Ok info →
  h ∈ si_functions info →
  h ≠ "" →
  (∀ after,
     exec_plain py (si_code info) (skill_globals py) = Ok after →
     after !! h = None →
     run_skill py SKILLS_DIR fs name (Some h) kwargs
     = ([EvExec (si_code info) (skill_globals py)],
        Raise (ValueError ("Function '" +:+ h
                           +:+ "' not found after executing skill"))))
  ∧ (∀ e,
       exec_plain py (si_code info) (skill_globals py) = Raise e →
       run_skill py SKILLS_DIR fs name (Some h) kwargs
       = ([EvExec (si_code info) (skill_globals py)], Raise e)).
Proof.
  intros Hget Hin Hh. unfold run_skill. rewrite Hget.
  destruct (si_functions info) as [|first rest] eqn:Hfns; [by apply elem_of_nil in Hin|].
  destruct (String.eqb_spec h "") as [?|_]; [done|].
  rewrite bool_decide_eq_false_2 by (intros Hn; by apply Hn).
  split.
  - intros after Hexec Hnone. by rewrite Hexec, Hnone.
  - intros e Hexec. by rewrite Hexec.
Qed.

Lemma run_skill_unbound_function_witness :
  ∃ fs r,
    save_skill Host.python Host.SKILLS_DIR Host.clock_2024 ∅ "outer"
      Host.code_nested "nested" None DEFAULT_RETURNS "" DEFAULT_VERSION = Ok (fs, r)
    ∧ run_skill Host.python Host.SKILLS_DIR fs "outer" (Some "helper") []
      = ([EvExec Host.code_nested (skill_globals Host.python)],
         Raise (ValueError "Function 'helper' not found after executing skill")).
Proof.
  destruct (save_skill Host.python Host.SKILLS_DIR Host.clock_2024 ∅ "outer"
              Host.code_nested "nested" None DEFAULT_RETURNS "" DEFAULT_VERSION)
    as [[fs r]|e] eqn:Hs; [|vm_compute in Hs; discriminate Hs].
  exists fs, r. split; [reflexivity|].
  destruct (save_skill_loads _ _ _ _ _ _ _ _ _ _ _ _ _ Hs)
    as (info & Hget & _ & Hcode & _ & _ & _ & _ & Hfns & _).
  apply save_skill_ok in Hs as (tree & Hparse & _ & Hr & _).
  vm_compute in Hparse. injection Hparse as <-.
  rewrite Hr in Hfns.
  destruct (run_skill_unbound_function Host.python Host.SKILLS_DIR fs "outer" "helper"
              info []) as [Hrun _].
  - exact Hget.
  - rewrite Hfns. vm_compute. right. left.
  - discriminate.
  - rewrite Hcode in Hrun. eapply Hrun; vm_compute; reflexivity.
Defined.
